(** * caplena-python: request headers, response envelope, dispatcher and
      resource objects

    A shallow embedding of [caplena/api.py], [caplena/http/http_response.py]
    and [caplena/endpoints/base_endpoint.py].

    Python objects that are mutated in place (header dicts, resource
    objects) live in stores indexed by references; a method is a function of
    the store that returns an outcome (a value or a raised exception)
    together with the store it leaves behind. *)

From stdpp Require Import gmap strings list fin_maps pretty.

Set Warnings "-register-all".
Open Scope string_scope.

(** ** Python values, exceptions and the state/exception monad *)

(** References to heap-allocated Python objects. *)
Abbreviation loc := positive.

(** The values that travel through the client: JSON data, references to
    resource objects (the instances of [BaseObject]), and references to
    dispatchers, which are no resource objects. *)
Inductive val : Type :=
  | VNone
  | VBool (b : bool)
  | VInt (z : Z)
  | VStr (s : string)
  | VList (items : list val)
  | VDict (entries : gmap string val)
  | VObj (ref : loc)
  | VController (ref : loc).

(** [x is None] *)
Definition is_None (v : val) : bool :=
  match v with VNone => true | _ => false end.

Inductive exn : Type :=
  | AttributeError (msg : string)
  | ValueError (msg : string)
  | KeyError (key : string)
  | TypeError (msg : string)
  | NotImplementedError (msg : string)
  | RecursionError (msg : string)
  | JSONDecodeError (msg : string)
  (** not a Python exception: the answer of the model to a reference that
      is not in the store, which Python cannot produce *)
  | InvalidReference (l : loc).

Inductive outcome (A : Type) : Type :=
  | Ok (a : A)
  | Raise (e : exn).
Arguments Ok {A} a.
Arguments Raise {A} e.

(** A computation over a state [S]: the state survives a raised exception,
    as every mutation made before the [raise] does in Python. *)
Definition M (S A : Type) : Type := S → outcome A * S.

Definition ret {S A} (a : A) : M S A := λ s, (Ok a, s).
Definition raise {S A} (e : exn) : M S A := λ s, (Raise e, s).
Definition bind {S A B} (m : M S A) (k : A → M S B) : M S B :=
  λ s, match m s with
       | (Ok a, s') => k a s'
       | (Raise e, s') => (Raise e, s')
       end.
Definition get_state {S} : M S S := λ s, (Ok s, s).
Definition put_state {S} (s : S) : M S unit := λ _, (Ok tt, s).
Definition modify {S} (f : S → S) : M S unit := λ s, (Ok tt, f s).
Definition lift {S A} (o : outcome A) : M S A := λ s, (o, s).

(** [raise e] for an expression [e]: the expression is evaluated, which may
    itself raise, and the exception it yields is raised. *)
Definition raise_from {S A} (e : outcome exn) : M S A :=
  λ s, match e with
       | Ok exc => (Raise exc, s)
       | Raise exc => (Raise exc, s)
       end.

Notation "'let*' x ':=' m 'in' k" := (bind m (λ x, k))
  (at level 10, x pattern, m at level 100, k at level 200).
Notation "m ';;' k" := (bind m (λ _, k))
  (at level 100, k at level 200, right associativity).

(** A computation on one component of a pair of states. *)
Definition on_fst {S T A} (m : M S A) : M (S * T) A :=
  λ st, let (o, s') := m st.1 in (o, (s', st.2)).
Definition on_snd {S T A} (m : M T A) : M (S * T) A :=
  λ st, let (o, t') := m st.2 in (o, (st.1, t')).

(** [for x in xs: body x] *)
Fixpoint for_each {S A} (xs : list A) (body : A → M S unit) : M S unit :=
  match xs with
  | [] => ret tt
  | x :: xs' => body x ;; for_each xs' body
  end.

(** [for x in xs: acc = body acc x] *)
Fixpoint fold_each {S A B} (xs : list A) (acc : B) (body : B → A → M S B)
    : M S B :=
  match xs with
  | [] => ret acc
  | x :: xs' => let* acc' := body acc x in fold_each xs' acc' body
  end.

(** A call [f(k1=v1, ..., kn=vn)] of a function with the parameters
    [parameters] and no [**kwargs]: a keyword that names none of them makes
    the call raise [TypeError], and the body of [f] does not run. *)
Definition call_keywords {S A} (f : string) (parameters keywords : list string)
    (body : M S A) : M S A :=
  match list_find (λ k, k ∉ parameters) keywords with
  | Some (_, k) =>
      raise (TypeError
        (f +:+ "() got an unexpected keyword argument '" +:+ k +:+ "'"))
  | None => body
  end.

(** ** [len] and slices of a [str]

    A Python [str] is a sequence of code points. It is held here in its UTF-8
    encoding, as the string literals of this file are: a code point is one
    byte that is not of the form [10xxxxxx], followed by bytes of that form
    only. *)

Definition continuation (c : Ascii.ascii) : bool :=
  match c with
  | Ascii.Ascii _ _ _ _ _ _ b6 b7 => b7 && negb b6
  end.

(** [len(s)] *)
Fixpoint len (s : string) : nat :=
  match s with
  | EmptyString => 0
  | String c s' => if continuation c then len s' else S (len s')
  end.

(** [s[:n]] *)
Fixpoint slice_to (n : nat) (s : string) : string :=
  match s with
  | EmptyString => EmptyString
  | String c s' =>
      if continuation c then String c (slice_to n s')
      else match n with
           | O => EmptyString
           | S n' => String c (slice_to n' s')
           end
  end.

(** ** [str.replace] *)

Fixpoint strip_prefix (p s : string) : option string :=
  match p, s with
  | EmptyString, _ => Some s
  | String a p', String b s' =>
      if Ascii.eqb a b then strip_prefix p' s' else None
  | String _ _, EmptyString => None
  end.

Fixpoint replace_from (fuel : nat) (old new s : string) : string :=
  match fuel with
  | O => s
  | S fuel' =>
      match strip_prefix old s with
      | Some rest => new +:+ replace_from fuel' old new rest
      | None =>
          match s with
          | EmptyString => EmptyString
          | String c s' => String c (replace_from fuel' old new s')
          end
      end
  end.

Fixpoint intersperse (new s : string) : string :=
  match s with
  | EmptyString => new
  | String c s' => new +:+ String c (intersperse new s')
  end.

(** [s.replace(old, new)]: every non-overlapping occurrence of [old], from
    the left; an empty [old] matches between any two characters. *)
Definition str_replace (old new s : string) : string :=
  match old with
  | EmptyString => intersperse new s
  | String _ _ => replace_from (S (String.length s)) old new s
  end.

(** ** [caplena/http/http_response.py] *)

Module Http.

(** An instance of [HttpResponse]. [_json] is [None] while the instance has
    no attribute of that name, and [Some v] once [self._json = v] ran. *)
Record HttpResponse : Type := mkHttpResponse {
  status_code : Z;
  reason : string;
  text : option string;
  headers : option (gmap string string);
  _json : option val
}.

(** [HttpResponse.__init__]: the four assignments of the constructor; no
    other attribute is created. *)
Definition HttpResponse__init__ (status_code : Z) (reason : string)
    (text : option string) (headers : option (gmap string string))
    : HttpResponse :=
  {| status_code := status_code; reason := reason; text := text;
     headers := headers; _json := None |}.

(** [self._json] as an expression *)
Definition getattr__json : M HttpResponse val :=
  let* self := get_state in
  match _json self with
  | Some v => ret v
  | None =>
      raise (AttributeError "'HttpResponse' object has no attribute '_json'")
  end.

(** [self._json = v] *)
Definition setattr__json (v : val) : M HttpResponse unit :=
  modify (λ self,
    {| status_code := status_code self; reason := reason self;
       text := text self; headers := headers self; _json := Some v |}).

(** Truth value of an [Optional[str]]. *)
Definition truthy (t : option string) : bool :=
  match t with
  | None | Some EmptyString => false
  | Some (String _ _) => true
  end.

Section Json.

(** [json.loads] of the Python standard library. *)
Variable json_loads : string → outcome val.

(** The property [HttpResponse.json]. The second branch assigns the parsed
    body and ends without a [return]: the access evaluates to [None]. *)
Definition json : M HttpResponse val :=
  let* cached := getattr__json in
  if negb (is_None cached) then ret cached
  else
    let* self := get_state in
    if truthy (text self) then
      let* parsed := lift (json_loads (default "" (text self))) in
      setattr__json parsed ;;
      ret VNone
    else ret VNone.

End Json.

End Http.

(** ** [caplena/api.py] *)

Module Api.

Inductive ApiVersion : Type := DEFAULT | VER_2021_12_01.

Global Instance ApiVersion_eq_dec : EqDecision ApiVersion.
Proof. solve_decision. Defined.

(** [self.name] of an enum member *)
Definition name (v : ApiVersion) : string :=
  match v with
  | DEFAULT => "DEFAULT"
  | VER_2021_12_01 => "VER_2021_12_01"
  end.

(** The property [ApiVersion.version]. *)
Definition version (self : ApiVersion) : outcome string :=
  if negb (String.eqb (name self) (name DEFAULT))
  then Ok (str_replace "_" "-" (str_replace "VER_" "" (name self)))
  else Raise (ValueError
          ("Cannot convert `" +:+ name self +:+ "` to a valid version string.")).

(** The part of [HttpClient] the requestor reads. *)
Record HttpClient : Type := { identifier : string }.

Record ApiRequestor : Type := { _http_client : HttpClient }.

(** The store of header dictionaries: a [Dict[str, str]] is passed by
    reference, so the caller's dictionary and the one that is returned are
    two cells of this store. *)
Abbreviation dicts := (gmap loc (gmap string string)).

(** [{}] and [d.copy()] allocate a new dictionary. *)
Definition new_dict (d : gmap string string) : M dicts loc :=
  let* σ := get_state in
  let l := fresh (dom σ) in
  put_state (<[l := d]> σ) ;;
  ret l.

Definition deref (l : loc) : M dicts (gmap string string) :=
  let* σ := get_state in
  match σ !! l with
  | Some d => ret d
  | None => raise (InvalidReference l)
  end.

Definition dict_copy (l : loc) : M dicts loc :=
  let* d := deref l in new_dict d.

(** [d.setdefault(k, v)], its result dropped *)
Definition dict_setdefault (l : loc) (k v : string) : M dicts unit :=
  let* d := deref l in
  match d !! k with
  | Some _ => ret tt
  | None => modify (<[l := <[k := v]> d]>)
  end.

(** [d[k] = v] *)
Definition dict_setitem (l : loc) (k v : string) : M dicts unit :=
  let* d := deref l in
  modify (<[l := <[k := v]> d]>).

Section Requestor.

(** [Helpers.get_user_agent], from [caplena/helpers.py], which is not part
    of the sources. *)
Variable get_user_agent : string → string.

(** [ApiRequestor.build_request_headers]; an argument left out by the
    caller is [None] for [headers] and [api_key], [DEFAULT] for
    [api_version]. *)
Definition build_request_headers (self : ApiRequestor) (headers : option loc)
    (api_version : ApiVersion) (api_key : option string) : M dicts loc :=
  let* headers :=
    match headers with
    | None => new_dict ∅
    | Some h => dict_copy h
    end in
  dict_setdefault headers "Accept" "application/json" ;;
  dict_setitem headers "User-Agent"
    (get_user_agent (identifier (_http_client self))) ;;
  match api_key with
  | Some key => dict_setitem headers "Caplena-API-Key" key
  | None => ret tt
  end ;;
  (if decide (api_version ≠ DEFAULT)
   then let* v := lift (version api_version) in
        dict_setitem headers "Caplena-API-Version" v
   else ret tt) ;;
  ret headers.

(** The entries of the dictionary that [build_request_headers] returns, as a
    function of the entries [d] the caller passed: what the statements of the
    method make of the copy ([build_request_headers_run] below). *)
Definition sent (self : ApiRequestor) (d : gmap string string)
    (api_version : ApiVersion) (api_key : option string)
    : gmap string string :=
  let d1 := match d !! "Accept" with
            | Some _ => d
            | None => <["Accept" := "application/json"]> d
            end in
  let d2 := <["User-Agent" := get_user_agent (identifier (_http_client self))]> d1 in
  let d3 := match api_key with
            | Some key => <["Caplena-API-Key" := key]> d2
            | None => d2
            end in
  match api_version with
  | DEFAULT => d3
  | VER_2021_12_01 => <["Caplena-API-Version" := "2021-12-01"]> d3
  end.

End Requestor.

(** The three headers the requestor claims for itself. *)
Definition reserved_headers : gset string :=
  {[ "User-Agent"; "Caplena-API-Key"; "Caplena-API-Version" ]}.

End Api.

(** ** [caplena/api.py]: URIs and requests *)

Module Requests.

Import Http Api.

Inductive ApiBaseUri : Type := LOCAL | PRODUCTION.

(** The property [ApiBaseUri.url] *)
Definition url (self : ApiBaseUri) : string :=
  match self with
  | LOCAL => "http://localhost:8000/v2"
  | PRODUCTION => "https://api.caplena.com/v2"
  end.

(** The members of [HttpMethod] the requestor names. *)
Inductive HttpMethod : Type := GET | POST | PUT | PATCH | DELETE.

(** [Union[str, ApiBaseUri]] *)
Inductive base_uri_arg : Type :=
  | UriStr (s : string)
  | UriEnum (e : ApiBaseUri).

Section Requestor.

(** [Helpers.get_user_agent], [Helpers.append_path] and
    [Helpers.build_qualified_uri], from [caplena/helpers.py], which is not
    part of the sources. *)
Variable get_user_agent : string → string.
Variable append_path : string → string → outcome string.
Variable build_qualified_uri :
  string → gmap string string → gmap string string → outcome string.

(** [HttpRetry] and the method [HttpClient.request], from
    [caplena/http/http_client.py], which is not part of the sources: URI,
    method, the reference to the header dictionary, body, timeout, retry. *)
Variable HttpRetry : Type.
Variable request :
  HttpClient → string → HttpMethod → loc → option val → option Z →
  option HttpRetry → M dicts HttpResponse.

(** [ApiRequestor.build_uri] *)
Definition build_uri (self : ApiRequestor) (base_uri : base_uri_arg)
    (path : string) (path_params query_params : option (gmap string string))
    : outcome string :=
  let path_params := default ∅ path_params in
  let query_params := default ∅ query_params in
  let base_uri := match base_uri with
                  | UriEnum e => url e
                  | UriStr s => s
                  end in
  match append_path base_uri path with
  | Raise e => Raise e
  | Ok absolute_uri => build_qualified_uri absolute_uri path_params query_params
  end.

(** [ApiRequestor.request_raw] *)
Definition request_raw (self : ApiRequestor) (base_uri : base_uri_arg)
    (path : string) (method : HttpMethod) (api_version : ApiVersion)
    (api_key : option string)
    (path_params query_params : option (gmap string string))
    (json : option val) (headers : option loc) (timeout : option Z)
    (retry : option HttpRetry) : M dicts HttpResponse :=
  let* absolute_uri :=
    lift (build_uri self base_uri path path_params query_params) in
  let* headers :=
    build_request_headers get_user_agent self headers api_version api_key in
  request (_http_client self) absolute_uri method headers json timeout retry.

(** [ApiRequestor.get] *)
Definition get (self : ApiRequestor) (base_uri : base_uri_arg) (path : string)
    (api_version : ApiVersion) (api_key : option string)
    (path_params query_params : option (gmap string string))
    (headers : option loc) (timeout : option Z) (retry : option HttpRetry)
    : M dicts HttpResponse :=
  request_raw self base_uri path GET api_version api_key path_params
    query_params None headers timeout retry.

(** [ApiRequestor.post] *)
Definition post (self : ApiRequestor) (base_uri : base_uri_arg) (path : string)
    (api_version : ApiVersion) (api_key : option string)
    (path_params query_params : option (gmap string string))
    (json : option val)
    (headers : option loc) (timeout : option Z) (retry : option HttpRetry)
    : M dicts HttpResponse :=
  request_raw self base_uri path POST api_version api_key path_params
    query_params json headers timeout retry.

(** [ApiRequestor.put] *)
Definition put (self : ApiRequestor) (base_uri : base_uri_arg) (path : string)
    (api_version : ApiVersion) (api_key : option string)
    (path_params query_params : option (gmap string string))
    (json : option val)
    (headers : option loc) (timeout : option Z) (retry : option HttpRetry)
    : M dicts HttpResponse :=
  request_raw self base_uri path PUT api_version api_key path_params
    query_params json headers timeout retry.

(** [ApiRequestor.patch] *)
Definition patch (self : ApiRequestor) (base_uri : base_uri_arg) (path : string)
    (api_version : ApiVersion) (api_key : option string)
    (path_params query_params : option (gmap string string))
    (json : option val)
    (headers : option loc) (timeout : option Z) (retry : option HttpRetry)
    : M dicts HttpResponse :=
  request_raw self base_uri path PATCH api_version api_key path_params
    query_params json headers timeout retry.

(** [ApiRequestor.delete] *)
Definition delete (self : ApiRequestor) (base_uri : base_uri_arg)
    (path : string)
    (api_version : ApiVersion) (api_key : option string)
    (path_params query_params : option (gmap string string))
    (headers : option loc) (timeout : option Z) (retry : option HttpRetry)
    : M dicts HttpResponse :=
  request_raw self base_uri path DELETE api_version api_key path_params
    query_params None headers timeout retry.

End Requestor.

(** The parameters of the verbs, as a call can name them: those of [get] and
    [delete], and those of [post], [put] and [patch], which take [json]
    besides. None of the verbs takes [**kwargs]. *)
Definition get_parameters : list string :=
  [ "base_uri"; "path"; "api_version"; "api_key"; "path_params";
    "query_params"; "headers"; "timeout"; "retry" ].
Definition post_parameters : list string :=
  [ "base_uri"; "path"; "api_version"; "api_key"; "path_params";
    "query_params"; "json"; "headers"; "timeout"; "retry" ].
Definition put_parameters : list string := post_parameters.
Definition patch_parameters : list string := post_parameters.
Definition delete_parameters : list string := get_parameters.

(** [self.build_exc(response)] on an [ApiRequestor]. The class defines
    [build_uri], [build_request_headers], [request_raw] and the five verbs,
    and [__init__] assigns [_http_client] and [_logger]: there is no
    [build_exc], the lookup of the attribute fails and nothing is called. *)
Definition build_exc (self : ApiRequestor) (response : HttpResponse)
    : outcome exn :=
  Raise (AttributeError "'ApiRequestor' object has no attribute 'build_exc'").

End Requests.

(** ** [caplena/endpoints/base_endpoint.py]: resource objects *)

Module Endpoint.

(** The class-level declarations of a resource class. *)
Record Schema : Type := mkSchema {
  __name__ : string;
  __fields__ : gset string;
  __mutable__ : gset string
}.

(** An instance of [BaseObject]: its class, the three attributes the class
    body declares, and the instance dictionary for every other attribute.
    [_controller] holds the reference to the dispatcher. *)
Record BaseObject : Type := mkBaseObject {
  cls : Schema;
  _attrs : gmap string val;
  _unpersisted_attributes : gset string;
  _controller : option loc;
  __dict__ : gmap string val
}.

Abbreviation heap := (gmap loc BaseObject).

Definition with_attrs (a : gmap string val) (o : BaseObject) : BaseObject :=
  mkBaseObject (cls o) a (_unpersisted_attributes o) (_controller o) (__dict__ o).
Definition with_unpersisted (u : gset string) (o : BaseObject) : BaseObject :=
  mkBaseObject (cls o) (_attrs o) u (_controller o) (__dict__ o).
Definition with_controller (c : option loc) (o : BaseObject) : BaseObject :=
  mkBaseObject (cls o) (_attrs o) (_unpersisted_attributes o) c (__dict__ o).
Definition with_dict (d : gmap string val) (o : BaseObject) : BaseObject :=
  mkBaseObject (cls o) (_attrs o) (_unpersisted_attributes o) (_controller o) d.

(** The object behind a reference. *)
Definition deref (self : loc) : M heap BaseObject :=
  let* σ := get_state in
  match σ !! self with
  | Some o => ret o
  | None => raise (InvalidReference self)
  end.

(** In-place update of the object behind a reference. *)
Definition update (self : loc) (f : BaseObject → BaseObject) : M heap unit :=
  let* o := deref self in
  modify (<[self := f o]>).

(** [object.__new__]: a new instance, none of its attributes assigned yet
    (the record holds empty ones until [__init__] assigns them). *)
Definition object__new__ (cls : Schema) : M heap loc :=
  let* σ := get_state in
  let self := fresh (dom σ) in
  put_state (<[self := mkBaseObject cls ∅ ∅ None ∅]> σ) ;;
  ret self.

(** The names of the attributes that the methods of [BaseObject] assign on
    [self]. Such an assignment goes through [__setattr__] and reaches
    [super().__setattr__] when the name is not a declared field, which is the
    case the methods below embed; the results on construction assume it. *)
Definition private_free (cls : Schema) : Prop :=
  ("_controller" ∉ __fields__ cls) ∧ ("_attrs" ∉ __fields__ cls) ∧
  ("_unpersisted_attributes" ∉ __fields__ cls).

Global Instance private_free_dec cls : Decision (private_free cls).
Proof. unfold private_free. apply _. Defined.

(** Modelled from the spec: [Helpers.partial_dict], from [caplena/helpers.py],
    is not part of the sources; the spec has materialization "filter the input
    mapping down to declared fields, discard the rest". *)
Definition partial_dict (obj : gmap string val) (keys : gset string)
    : gmap string val :=
  filter (λ kv, kv.1 ∈ keys) obj.

(** [BaseObject.refresh_from] *)
Definition refresh_from (self : loc) (attrs : gmap string val) : M heap unit :=
  let* o := deref self in
  let partial := partial_dict attrs (__fields__ (cls o)) in
  let validated := partial in
  update self (with_attrs validated) ;;
  update self (with_unpersisted ∅).

(** [BaseObject.__init__], after the allocation of the instance *)
Definition BaseObject__init__ (cls : Schema) (attrs : gmap string val)
    : M heap loc :=
  let* self := object__new__ cls in
  update self (with_controller None) ;;
  refresh_from self attrs ;;
  ret self.

(** The getter of the property [controller]. *)
Definition controller (self : loc) : M heap loc :=
  let* o := deref self in
  match _controller o with
  | None =>
      raise (ValueError
        ("You cannot access the non-existing controller for this object. HINT: This object either "
         +:+ "does not have a controller attached, or you forgot to manually set the controller after initializing it. "
         +:+ "(object.controller = your_controller)"))
  | Some c => ret c
  end.

(** [BaseObject._recursive_controller_set]. For a nested object the
    assignment is made on [self], not on [attr]; the [print] that precedes
    it writes to the standard output and is left out. *)
Fixpoint _recursive_controller_set (self : loc) (attr : val)
    (value : option loc) {struct attr} : M heap unit :=
  match attr with
  | VObj _ => update self (with_controller value)
  | VList items =>
      (fix each (items : list val) : M heap unit :=
         match items with
         | [] => ret tt
         | i :: rest => _recursive_controller_set self i value ;; each rest
         end) items
  | _ => ret tt
  end.

(** [self._attrs[field]] *)
Definition attrs_getitem (self : loc) (field : string) : M heap val :=
  let* o := deref self in
  match _attrs o !! field with
  | Some attr => ret attr
  | None => raise (KeyError field)
  end.

(** The setter of the property [controller]. *)
Definition set_controller (self : loc) (value : option loc) : M heap unit :=
  update self (with_controller value) ;;
  let* o := deref self in
  for_each (elements (__fields__ (cls o))) (λ field,
    let* attr := attrs_getitem self field in
    _recursive_controller_set self attr value).

(** [BaseObject._recursive_dict], given the method [dict] of the nested
    objects. *)
Fixpoint _recursive_dict (dict : loc → M heap (gmap string val)) (attr : val)
    {struct attr} : M heap val :=
  match attr with
  | VObj ref => let* d := dict ref in ret (VDict d)
  | VList items =>
      let* out :=
        (fix each (items : list val) : M heap (list val) :=
           match items with
           | [] => ret []
           | i :: rest =>
               let* x := _recursive_dict dict i in
               let* xs := each rest in
               ret (x :: xs)
           end) items in
      ret (VList out)
  | _ => ret attr
  end.

(** [BaseObject.dict]. [depth] is the number of nested calls the interpreter
    still allows: an object graph with a cycle ends in [RecursionError].
    The call [attr.dict()] on a nested object is taken to this method; a
    nested instance of [BaseResource] answers with [BaseResource.dict], which
    adds its identifier to what this method returns. *)
Fixpoint dict (depth : nat) (self : loc) : M heap (gmap string val) :=
  match depth with
  | O => raise (RecursionError "maximum recursion depth exceeded")
  | S depth' =>
      let* o := deref self in
      fold_each (elements (__fields__ (cls o))) ∅ (λ resource field,
        let* attr := attrs_getitem self field in
        let* exported := _recursive_dict (dict depth') attr in
        ret (<[field := exported]> resource))
  end.

(** The public names of [BaseObject] and [BaseResource]. *)
Definition public_names : gset string :=
  {[ "controller"; "id"; "dict"; "refresh_from"; "build_obj"; "parse_obj" ]}.

(** A name that means nothing to the interpreter and to the classes: no
    leading underscore, and none of the public names. *)
Definition ordinary (name : string) : Prop :=
  String.prefix "_" name = false ∧ name ∉ public_names.

Global Instance ordinary_dec name : Decision (ordinary name).
Proof. unfold ordinary. apply _. Defined.

(** [BaseObject.__setattr__]. The last branch is [object.__setattr__], which
    stores the value in the instance dictionary when the name is [ordinary],
    and for [_id]: that is the branch as it is here. What the interpreter
    does for the other names (the properties [controller] and [id],
    [__class__], [__dict__], [__weakref__]), and what the entries [_attrs],
    [_unpersisted_attributes], [_controller], [__fields__], [__mutable__] or
    a method name in the instance dictionary do to the methods, is not in
    this branch; [setattr_controller] below has the assignment of
    [controller]. *)
Definition __setattr__ (self : loc) (name : string) (value : val)
    : M heap unit :=
  let* o := deref self in
  if decide (name ∈ __fields__ (cls o) ∧ name ∈ __mutable__ (cls o)) then
    update self (λ o, with_unpersisted ({[name]} ∪ _unpersisted_attributes o) o) ;;
    update self (λ o, with_attrs (<[name := value]> (_attrs o)) o)
  else if decide (name ∈ __fields__ (cls o)) then
    raise (AttributeError
      (name +:+ ". HINT: You cannot modify this attribute, as it is immutable."))
  else
    update self (λ o, with_dict (<[name := value]> (__dict__ o)) o).

(** [BaseObject.__delattr__] *)
Definition __delattr__ (self : loc) (name : string) : M heap unit :=
  raise (ValueError (name +:+ ". HINT: You cannot delete any attributes.")).

(** A resource class as the dispatcher receives it ([Type[BO]]): its
    declarations and its classmethod [parse_obj]. *)
Record Resource : Type := mkResource {
  schema : Schema;
  parse_obj : val → M heap loc
}.

(** [BaseObject.parse_obj], which every resource class overrides. *)
Definition BaseObject_parse_obj (cls : Schema) (obj : val) : M heap loc :=
  raise (NotImplementedError
    (__name__ cls +:+ " must implement the classmethod `_parse_obj`.")).

(** Modelled from the spec: the [parse_obj] of a concrete resource class;
    none is part of the sources. The spec has materialization "filter the
    input mapping down to declared fields, discard the rest, store as the
    initial field-value mapping, reset the dirty set to empty", which is
    [cls( **obj )]. *)
Definition construct (cls : Schema) (obj : val) : M heap loc :=
  match obj with
  | VDict attrs => BaseObject__init__ cls attrs
  | _ => raise (TypeError "argument after ** must be a mapping")
  end.

(** A dispatcher, or [None], as a value. *)
Definition controller_value (value : option loc) : val :=
  match value with
  | Some c => VController c
  | None => VNone
  end.

(** [self.controller = value] for a dispatcher or [None]. The assignment
    goes through [__setattr__]: a class that declares a field [controller]
    has it stored, or refused, as a field; otherwise [object.__setattr__]
    finds the property and calls its setter. *)
Definition setattr_controller (self : loc) (value : option loc)
    : M heap unit :=
  let* o := deref self in
  if decide ("controller" ∈ __fields__ (cls o))
  then __setattr__ self "controller" (controller_value value)
  else set_controller self value.

(** [BaseObject.build_obj] *)
Definition build_obj (cls : Resource) (obj : val) (controller : option loc)
    : M heap loc :=
  let* instance := parse_obj cls obj in
  setattr_controller instance controller ;;
  ret instance.

(** *** The dispatcher *)

Import Http.

Definition DEFAULT_ALLOWED_CODES : gset Z := {[ 200%Z ]}.
Definition DEFAULT_ALLOWED_POST_CODES : gset Z := {[ 201%Z ]}.
Definition DEFAULT_ALLOWED_DELETE_CODES : gset Z := {[ 204%Z ]}.

Abbreviation params := (option (gmap string string)).

Section Dispatcher.

(** [ApiFilter] and [ApiOrdering] are imported from [caplena.api], which
    declares neither. *)
Variables ApiFilter ApiOrdering : Type.

(** [json.loads] of the Python standard library. *)
Variable json_loads : string → outcome val.

(** [Helpers.get_user_agent], [Helpers.append_path] and
    [Helpers.build_qualified_uri] ([caplena/helpers.py]), [HttpRetry] and the
    method [HttpClient.request] ([caplena/http/http_client.py]): what the
    requestor of [caplena/api.py] calls, and which is not part of the
    sources. *)
Variable get_user_agent : string → string.
Variable append_path : string → string → outcome string.
Variable build_qualified_uri :
  string → gmap string string → gmap string string → outcome string.
Variable HttpRetry : Type.
Variable request :
  Api.HttpClient → string → Requests.HttpMethod → loc → option val →
  option Z → option HttpRetry → M Api.dicts HttpResponse.

(** The part of [Configuration] ([caplena/configuration.py], not part of the
    sources) the dispatcher reads: the requestor is an [ApiRequestor]. *)
Record Configuration : Type := mkConfiguration {
  api_requestor : Api.ApiRequestor;
  api_base_uri : Requests.base_uri_arg;
  api_key : option string
}.

(** A dispatcher: the reference by which resource objects hold it, and its
    configuration. *)
Record BaseController : Type := mkBaseController {
  ref : loc;
  _config : Configuration
}.

(** The property [BaseController.api] *)
Definition api (self : BaseController) : Api.ApiRequestor :=
  api_requestor (_config self).

(** [BaseController.get]; [allowed_codes] is [None] when the caller leaves
    the argument out. The requestor is called with the keywords [filter] and
    [order_by], which [ApiRequestor.get] does not take. *)
Definition get (self : BaseController) (path : string)
    (allowed_codes : option (gset Z)) (path_params query_params : params)
    (filter : option ApiFilter) (order_by : option ApiOrdering)
    : M Api.dicts HttpResponse :=
  let allowed_codes := default DEFAULT_ALLOWED_CODES allowed_codes in
  let* response :=
    call_keywords "get" Requests.get_parameters
      [ "base_uri"; "path"; "api_key"; "path_params"; "query_params";
        "filter"; "order_by" ]
      (Requests.get get_user_agent append_path build_qualified_uri HttpRetry
         request (api_requestor (_config self)) (api_base_uri (_config self))
         path Api.DEFAULT (api_key (_config self)) path_params query_params
         None None None) in
  if decide (status_code response ∉ allowed_codes)
  then raise_from (Requests.build_exc (api_requestor (_config self)) response)
  else ret response.

(** [BaseController.post] *)
Definition post (self : BaseController) (path : string)
    (allowed_codes : option (gset Z)) (path_params query_params : params)
    (json : option val) : M Api.dicts HttpResponse :=
  let allowed_codes := default DEFAULT_ALLOWED_POST_CODES allowed_codes in
  let* response :=
    call_keywords "post" Requests.post_parameters
      [ "base_uri"; "path"; "api_key"; "path_params"; "query_params"; "json" ]
      (Requests.post get_user_agent append_path build_qualified_uri HttpRetry
         request (api_requestor (_config self)) (api_base_uri (_config self))
         path Api.DEFAULT (api_key (_config self)) path_params query_params
         json None None None) in
  if decide (status_code response ∉ allowed_codes)
  then raise_from (Requests.build_exc (api_requestor (_config self)) response)
  else ret response.

(** [BaseController.put] *)
Definition put (self : BaseController) (path : string)
    (allowed_codes : option (gset Z)) (path_params query_params : params)
    (json : option val) : M Api.dicts HttpResponse :=
  let allowed_codes := default DEFAULT_ALLOWED_CODES allowed_codes in
  let* response :=
    call_keywords "put" Requests.put_parameters
      [ "base_uri"; "path"; "api_key"; "path_params"; "query_params"; "json" ]
      (Requests.put get_user_agent append_path build_qualified_uri HttpRetry
         request (api_requestor (_config self)) (api_base_uri (_config self))
         path Api.DEFAULT (api_key (_config self)) path_params query_params
         json None None None) in
  if decide (status_code response ∉ allowed_codes)
  then raise_from (Requests.build_exc (api_requestor (_config self)) response)
  else ret response.

(** [BaseController.patch] *)
Definition patch (self : BaseController) (path : string)
    (allowed_codes : option (gset Z)) (path_params query_params : params)
    (json : option val) : M Api.dicts HttpResponse :=
  let allowed_codes := default DEFAULT_ALLOWED_CODES allowed_codes in
  let* response :=
    call_keywords "patch" Requests.patch_parameters
      [ "base_uri"; "path"; "api_key"; "path_params"; "query_params"; "json" ]
      (Requests.patch get_user_agent append_path build_qualified_uri HttpRetry
         request (api_requestor (_config self)) (api_base_uri (_config self))
         path Api.DEFAULT (api_key (_config self)) path_params query_params
         json None None None) in
  if decide (status_code response ∉ allowed_codes)
  then raise_from (Requests.build_exc (api_requestor (_config self)) response)
  else ret response.

(** [BaseController.delete] *)
Definition delete (self : BaseController) (path : string)
    (allowed_codes : option (gset Z)) (path_params query_params : params)
    : M Api.dicts HttpResponse :=
  let allowed_codes := default DEFAULT_ALLOWED_DELETE_CODES allowed_codes in
  let* response :=
    call_keywords "delete" Requests.delete_parameters
      [ "base_uri"; "path"; "api_key"; "path_params"; "query_params" ]
      (Requests.delete get_user_agent append_path build_qualified_uri
         HttpRetry request (api_requestor (_config self))
         (api_base_uri (_config self)) path Api.DEFAULT
         (api_key (_config self)) path_params query_params None None None) in
  if decide (status_code response ∉ allowed_codes)
  then raise_from (Requests.build_exc (api_requestor (_config self)) response)
  else ret response.

(** [BaseController._retrieve_json_or_raise]. The state is the response
    object the argument refers to, paired with the store of resource
    objects. *)
Definition _retrieve_json_or_raise (self : BaseController)
    : M (HttpResponse * heap) val :=
  let* json := on_fst (Http.json json_loads) in
  if is_None json then
    let* response := on_fst get_state in
    raise_from (Requests.build_exc (api self) response)
  else ret json.

(** [BaseController.build_response] *)
Definition build_response (self : BaseController) (resource : Resource)
    : M (HttpResponse * heap) loc :=
  let* json := _retrieve_json_or_raise self in
  on_snd (build_obj resource json (Some (ref self))).

End Dispatcher.

Arguments get {ApiFilter ApiOrdering} get_user_agent append_path
  build_qualified_uri HttpRetry request self path allowed_codes path_params
  query_params filter order_by.

(** *** Vocabulary of the statements *)

(** A value that is neither a resource object nor a list: [_recursive_dict]
    passes it through. *)
Definition plain (v : val) : Prop :=
  match v with
  | VObj _ | VList _ => False
  | _ => True
  end.

(** The first declared field, in the order of the iteration, that has no
    entry in [attrs]. *)
Definition first_missing (attrs : gmap string val) (fields : list string)
    : option string :=
  snd <$> list_find (λ f, attrs !! f = None) fields.

End Endpoint.

(** ** [HttpResponse.__str__] *)

Module Repr.

Import Http.

(** [str(x)] for an [Optional[str]] *)
Definition str_of_text (t : option string) : string :=
  match t with
  | None => "None"
  | Some s => s
  end.

(** The local [concat_text] of [__str__]: the first fifty characters and
    an ellipsis for a longer text, [str(self.text)] otherwise. *)
Definition concat_text (self : HttpResponse) : string :=
  if truthy (text self) && bool_decide (50 < len (default "" (text self)))%nat
  then slice_to 50 (default "" (text self)) +:+ "..."
  else str_of_text (text self).

(** [HttpResponse.__str__]; [pretty] is the decimal notation of [str(int)]. *)
Definition HttpResponse__str__ (self : HttpResponse) : string :=
  "HttpResponse(status_code=" +:+ pretty (status_code self)
  +:+ ", reason='" +:+ reason self
  +:+ "', text='" +:+ concat_text self +:+ "')".

End Repr.

(** ** [caplena/endpoints/base_endpoint.py]: field reads, identified
       resources and pages *)

Module Resources.

Import Http Endpoint.

Section Lookup.

(** [object.__getattribute__], the attribute lookup of the interpreter. *)
Variable object__getattribute__ : loc → string → M heap val.

(** [BaseObject.__getattr__] *)
Definition __getattr__ (self : loc) (name : string) : M heap val :=
  let* o := deref self in
  if decide (name ∈ __fields__ (cls o)) then attrs_getitem self name
  else object__getattribute__ self name.

(** [self._id] as an expression: the instance dictionary, then
    [__getattr__]. *)
Definition getattr__id (self : loc) : M heap val :=
  let* o := deref self in
  match __dict__ o !! "_id" with
  | Some v => ret v
  | None => __getattr__ self "_id"
  end.

(** [BaseResource.__init__], after the allocation of the instance; [attrs]
    are the keyword arguments other than [id]. *)
Definition BaseResource__init__ (cls : Schema) (id : string)
    (attrs : gmap string val) : M heap loc :=
  let* self := BaseObject__init__ cls attrs in
  __setattr__ self "_id" (VStr id) ;;
  ret self.

(** The property [BaseResource.id] *)
Definition id (self : loc) : M heap val := getattr__id self.

(** [BaseResource.dict], for a resource whose fields hold no identified
    resources ([super().dict()] is [BaseObject.dict]). *)
Definition BaseResource_dict (depth : nat) (self : loc)
    : M heap (gmap string val) :=
  let* resource := dict depth self in
  let* id := getattr__id self in
  ret (<["id" := id]> resource).

End Lookup.

(** [v[key]] for a string [key] *)
Definition getitem (v : val) (key : string) : outcome val :=
  match v with
  | VDict entries =>
      match entries !! key with
      | Some x => Ok x
      | None => Raise (KeyError key)
      end
  | VList _ => Raise (TypeError "list indices must be integers or slices, not str")
  | VStr _ => Raise (TypeError "string indices must be integers")
  | VNone => Raise (TypeError "'NoneType' object is not subscriptable")
  | VBool _ => Raise (TypeError "'bool' object is not subscriptable")
  | VInt _ => Raise (TypeError "'int' object is not subscriptable")
  | VObj _ | VController _ => Raise (TypeError "object is not subscriptable")
  end.

Fixpoint characters (s : string) : list val :=
  match s with
  | EmptyString => []
  | String c s' => VStr (String c EmptyString) :: characters s'
  end.

(** [for x in v]: the elements of a list, the characters of a string, the
    keys of a dictionary (in the order of the map; a Python dictionary
    keeps the order of insertion, which the map does not). *)
Definition iterate (v : val) : outcome (list val) :=
  match v with
  | VList items => Ok items
  | VStr s => Ok (characters s)
  | VDict entries => Ok (VStr <$> (map_to_list entries).*1)
  | VNone => Raise (TypeError "'NoneType' object is not iterable")
  | VBool _ => Raise (TypeError "'bool' object is not iterable")
  | VInt _ => Raise (TypeError "'int' object is not iterable")
  | VObj _ | VController _ => Raise (TypeError "object is not iterable")
  end.

(** [[f(x) for x in xs]] *)
Fixpoint map_each {S A B} (f : A → M S B) (xs : list A) : M S (list B) :=
  match xs with
  | [] => ret []
  | x :: xs' =>
      let* y := f x in
      let* ys := map_each f xs' in
      ret (y :: ys)
  end.

(** A computation on a response that the caller drops afterwards. *)
Definition with_response {A} (response : HttpResponse)
    (m : M (HttpResponse * heap) A) : M heap A :=
  λ σ, let (result, state) := m (response, σ) in (result, state.2).

(** The objects of a page: one per row, in the order of the rows, new in
    the store, each with the declared entries of its row and this
    dispatcher as controller. *)
Definition materialized (cls : Schema) (controller : loc)
    (σ σ' : gmap loc BaseObject) (results : list loc)
    (rows : list (gmap string val)) : Prop :=
  NoDup results
  ∧ Forall (λ l, σ !! l = None) results
  ∧ Forall2 (λ l row,
       ∃ o, σ' !! l = Some o ∧ Endpoint.cls o = cls
            ∧ _controller o = Some controller
            ∧ _unpersisted_attributes o = ∅
            ∧ ∀ k, _attrs o !! k
                   = if decide (k ∈ __fields__ cls) then row !! k else None)
     results rows
  ∧ (∀ l, is_Some (σ !! l) → σ' !! l = σ !! l).

Section Pages.

Variable json_loads : string → outcome val.

(** The closure [results_fetcher] of [BaseController.build_iterator], which
    hands it to [Iterator] ([caplena/iterator.py], not part of the
    sources). *)
Definition results_fetcher (self : BaseController)
    (fetcher : Z → outcome HttpResponse) (resource : Resource) (page : Z)
    : M heap (list loc * bool * val) :=
  let* response := lift (fetcher page) in
  let* json := with_response response (_retrieve_json_or_raise json_loads self) in
  let* entries := lift (getitem json "results") in
  let* items := lift (iterate entries) in
  let* results :=
    map_each (λ res, build_obj resource res (Some (ref self))) items in
  let* next_url := lift (getitem json "next_url") in
  let* count := lift (getitem json "count") in
  ret (results, negb (is_None next_url), count).

End Pages.

End Resources.

(** ** Client code on resource objects *)

Module Session.

Import Endpoint.

(** One statement of client code on resource objects. *)
Inductive stmt : Type :=
  | Construct (cls : Schema) (attrs : gmap string val)
      (** [cls( **attrs )] *)
  | Write (self : loc) (name : string) (value : val)
      (** [self.name = value] *)
  | Delete (self : loc) (name : string)
      (** [del self.name] *)
  | Attach (self : loc) (value : option loc)
      (** [self.controller = value] *)
  | Refresh (self : loc) (attrs : gmap string val)
      (** [self.refresh_from(attrs=attrs)] *).

Definition exec (s : stmt) : M heap unit :=
  match s with
  | Construct cls attrs => BaseObject__init__ cls attrs ;; ret tt
  | Write self name value => __setattr__ self name value
  | Delete self name => __delattr__ self name
  | Attach self value => setattr_controller self value
  | Refresh self attrs => refresh_from self attrs
  end.

(** The store after a script, each statement run in turn, an exception
    being caught by the client and the script going on. *)
Fixpoint after (script : list stmt) (σ : heap) : heap :=
  match script with
  | [] => σ
  | s :: rest => after rest (exec s σ).2
  end.

(** The statements the embedding answers for, in the store they run in: a
    class that declares none of the attributes the methods assign; an input
    with an entry for every declared field; an object that is there; a write
    to a declared field or under an [ordinary] name. *)
Definition covered (σ : heap) (s : stmt) : Prop :=
  match s with
  | Construct cls attrs => private_free cls ∧ __fields__ cls ⊆ dom attrs
  | Write self name _ =>
      match σ !! self with
      | Some o => name ∈ __fields__ (cls o) ∨ ordinary name
      | None => False
      end
  | Delete self _ => is_Some (σ !! self)
  | Attach self _ => is_Some (σ !! self)
  | Refresh self attrs =>
      match σ !! self with
      | Some o => __fields__ (cls o) ⊆ dom attrs
      | None => False
      end
  end.

Global Instance covered_dec σ s : Decision (covered σ s).
Proof.
  destruct s as [cls attrs|self name value|self name|self value|self attrs];
    cbn; try apply _; destruct (σ !! self); apply _.
Defined.

(** A script all of whose statements are covered where they run. *)
Fixpoint all_covered (script : list stmt) (σ : heap) : Prop :=
  match script with
  | [] => True
  | s :: rest => covered σ s ∧ all_covered rest (exec s σ).2
  end.

Global Instance all_covered_dec script σ : Decision (all_covered script σ).
Proof.
  revert σ. induction script as [|s script IH]; intros σ; cbn; apply _.
Defined.

(** The invariant of an object: the dirty set names mutable declared fields
    only, and the field dictionary has declared fields only. *)
Definition consistent (o : BaseObject) : Prop :=
  _unpersisted_attributes o ⊆ __fields__ (cls o) ∩ __mutable__ (cls o)
  ∧ dom (_attrs o) ⊆ __fields__ (cls o).

(** [self.n1 = v1; self.n2 = v2; ...] *)
Definition write_all (self : loc) (writes : list (string * val)) : M heap unit :=
  for_each writes (λ w, __setattr__ self w.1 w.2).

(** The value a field holds after a list of writes: the last one written
    under its name, or the one it had. *)
Definition last_written (name : string) (writes : list (string * val))
    (before : option val) : option val :=
  foldl (λ held w, if decide (w.1 = name) then Some w.2 else held)
    before writes.

End Session.

(** * Properties *)

(** Unfolding of the monad. *)
Ltac run :=
  unfold bind, ret, raise, get_state, put_state, modify, lift, on_fst, on_snd;
  cbn.

Lemma bind_ok {S A B} (m : M S A) (k : A → M S B) s a s' :
  m s = (Ok a, s') → bind m k s = k a s'.
Proof. intros H. unfold bind. by rewrite H. Qed.

Lemma bind_raise {S A B} (m : M S A) (k : A → M S B) s e s' :
  m s = (Raise e, s') → bind m k s = (Raise e, s').
Proof. intros H. unfold bind. by rewrite H. Qed.

(** [str.replace] on the strings the interpreter answers for. *)
Example str_replace_examples :
  str_replace "VER_" "" "VER_2021_12_01" = "2021_12_01"
  ∧ str_replace "_" "-" "2021_12_01" = "2021-12-01"
  ∧ str_replace "aa" "b" "aaa" = "ba"
  ∧ str_replace "" "-" "abc" = "-a-b-c-"
  ∧ str_replace "_" "-" "" = "".
Proof. repeat split; reflexivity. Qed.

(** ** The response envelope *)

Section ResponseFacts.

Import Http.

Variable json_loads : string → outcome val.

Lemma json_after_init sc rs tx hd :
  json json_loads (HttpResponse__init__ sc rs tx hd)
  = (Raise (AttributeError "'HttpResponse' object has no attribute '_json'"),
     HttpResponse__init__ sc rs tx hd).
Proof. reflexivity. Qed.

(** Construction never parses the body. *)
Lemma init_does_not_parse sc rs tx hd :
  _json (HttpResponse__init__ sc rs tx hd) = None
  ∧ text (HttpResponse__init__ sc rs tx hd) = tx.
Proof. split; reflexivity. Qed.

(** The remaining lemmas are about an instance on which [_json] has been
    assigned. *)

Lemma json_cached r v :
  _json r = Some v → v ≠ VNone → json json_loads r = (Ok v, r).
Proof.
  intros Hslot Hv. unfold json, getattr__json. run.
  rewrite Hslot. destruct v; done.
Qed.

Lemma json_empty_body r :
  _json r = Some VNone → truthy (text r) = false →
  json json_loads r = (Ok VNone, r).
Proof.
  intros Hslot Hempty. unfold json, getattr__json. run.
  rewrite Hslot. cbn. by rewrite Hempty.
Qed.

Lemma json_first_parse r t v :
  _json r = Some VNone → text r = Some t → t ≠ "" → json_loads t = Ok v →
  json json_loads r
  = (Ok VNone, mkHttpResponse (status_code r) (reason r) (text r) (headers r) (Some v)).
Proof.
  destruct r as [sc rs tx hd js]. cbn. intros -> -> Ht Hparse.
  destruct t as [|c t]; [done|].
  unfold json, getattr__json. run. by rewrite Hparse.
Qed.

Lemma json_parse_failure r t e :
  _json r = Some VNone → text r = Some t → t ≠ "" → json_loads t = Raise e →
  json json_loads r = (Raise e, r).
Proof.
  destruct r as [sc rs tx hd js]. cbn. intros -> -> Ht Hparse.
  destruct t as [|c t]; [done|].
  unfold json, getattr__json. run. by rewrite Hparse.
Qed.

(** C4. The parsed body is not computed on first access. On a response
    built by the constructor every access of [json] raises [AttributeError],
    the constructor never assigning [_json]; and were [_json] initialised to
    [None], the first access of a response with body [{}] would store the
    parsed body but evaluate to [None], the second one to the parsed body. *)
Theorem json_first_access_defect :
  json_loads "{}" = Ok (VDict ∅) →
  let constructed := HttpResponse__init__ 200 "OK" (Some "{}") None in
  let initialised := mkHttpResponse 200 "OK" (Some "{}") None (Some VNone) in
  json json_loads constructed
  = (Raise (AttributeError "'HttpResponse' object has no attribute '_json'"),
     constructed)
  ∧ (∃ r', json json_loads initialised = (Ok VNone, r')
         ∧ json json_loads r' = (Ok (VDict ∅), r')).
Proof.
  intros Hparse constructed initialised. split; [reflexivity|].
  eexists. split.
  - apply (json_first_parse initialised "{}" (VDict ∅)); done.
  - apply json_cached; done.
Qed.

End ResponseFacts.

Lemma json_first_access_defect_witness :
  let loads := λ s : string,
    if decide (s = "{}") then Ok (VDict ∅) else Raise (JSONDecodeError s) in
  Http.json loads (Http.HttpResponse__init__ 200 "OK" (Some "{}") None)
  = (Raise (AttributeError "'HttpResponse' object has no attribute '_json'"),
     Http.HttpResponse__init__ 200 "OK" (Some "{}") None).
Proof.
  intros loads.
  exact (proj1 (json_first_access_defect loads eq_refl)).
Defined.

(** ** Request headers *)

Lemma version_VER_2021_12_01 : Api.version Api.VER_2021_12_01 = Ok "2021-12-01".
Proof. reflexivity. Qed.

Lemma version_DEFAULT :
  Api.version Api.DEFAULT
  = Raise (ValueError "Cannot convert `DEFAULT` to a valid version string.").
Proof. reflexivity. Qed.

(** Every member but the default one has a version string: the name with
    its [VER_] prefix removed and the underscores turned into hyphens. *)
Lemma version_of_non_default v :
  v ≠ Api.DEFAULT →
  Api.version v = Ok (str_replace "_" "-" (str_replace "VER_" "" (Api.name v)))
  ∧ Api.version v = Ok "2021-12-01".
Proof. destruct v; [done|]. intros _. split; reflexivity. Qed.

Section HeaderFacts.

Import Api.

Variable get_user_agent : string → string.
Variable self : ApiRequestor.

Implicit Types (σ : gmap loc (gmap string string)) (d : gmap string string).

Lemma new_dict_run d σ :
  new_dict d σ = (Ok (fresh (dom σ)), <[fresh (dom σ) := d]> σ).
Proof. reflexivity. Qed.

Lemma fresh_not_allocated σ : σ !! fresh (dom σ) = None.
Proof. apply not_elem_of_dom, is_fresh. Qed.

Lemma dict_copy_run l d σ :
  σ !! l = Some d →
  dict_copy l σ = (Ok (fresh (dom σ)), <[fresh (dom σ) := d]> σ).
Proof. intros H. unfold dict_copy, deref. run. by rewrite H. Qed.

Lemma dict_setitem_run l k v d σ :
  σ !! l = Some d →
  dict_setitem l k v σ = (Ok tt, <[l := <[k := v]> d]> σ).
Proof. intros H. unfold dict_setitem, deref. run. by rewrite H. Qed.

Lemma dict_setdefault_run l k v d σ :
  σ !! l = Some d →
  dict_setdefault l k v σ
  = (Ok tt, <[l := match d !! k with Some _ => d | None => <[k := v]> d end]> σ).
Proof.
  intros H. unfold dict_setdefault, deref. run. rewrite H. cbn.
  destruct (d !! k); [|done]. cbn. by rewrite insert_id.
Qed.

Lemma build_request_headers_tail l d σ api_version api_key :
  σ !! l = Some d →
  (dict_setdefault l "Accept" "application/json" ;;
   dict_setitem l "User-Agent"
     (get_user_agent (identifier (_http_client self))) ;;
   match api_key with
   | Some key => dict_setitem l "Caplena-API-Key" key
   | None => ret tt
   end ;;
   (if decide (api_version ≠ DEFAULT)
    then let* v := lift (version api_version) in
         dict_setitem l "Caplena-API-Version" v
    else ret tt) ;;
   ret l) σ
  = (Ok l, <[l := sent get_user_agent self d api_version api_key]> σ).
Proof.
  intros H.
  erewrite bind_ok by (by apply dict_setdefault_run).
  erewrite bind_ok by (apply dict_setitem_run, lookup_insert_eq).
  rewrite insert_insert_eq.
  destruct api_key as [key|].
  - erewrite bind_ok by (apply dict_setitem_run, lookup_insert_eq).
    rewrite insert_insert_eq.
    destruct api_version; case_decide as Hv; try done.
    rewrite version_VER_2021_12_01.
    erewrite bind_ok by (erewrite bind_ok by reflexivity;
                         apply dict_setitem_run, lookup_insert_eq).
    by rewrite insert_insert_eq.
  - erewrite bind_ok by reflexivity.
    destruct api_version; case_decide as Hv; try done.
    rewrite version_VER_2021_12_01.
    erewrite bind_ok by (erewrite bind_ok by reflexivity;
                         apply dict_setitem_run, lookup_insert_eq).
    by rewrite insert_insert_eq.
Qed.

(** What a call does to the store when the caller passes a dictionary: a
    new cell holds [sent d], nothing else changes. *)
Lemma build_request_headers_run l d σ api_version api_key :
  σ !! l = Some d →
  build_request_headers get_user_agent self (Some l) api_version api_key σ
  = (Ok (fresh (dom σ)), <[fresh (dom σ) := sent get_user_agent self d api_version api_key]> σ).
Proof.
  intros H. unfold build_request_headers.
  erewrite bind_ok by (by apply dict_copy_run).
  erewrite build_request_headers_tail by apply lookup_insert_eq.
  by rewrite insert_insert_eq.
Qed.

(** The same without a dictionary of the caller. *)
Lemma build_request_headers_run_None σ api_version api_key :
  build_request_headers get_user_agent self None api_version api_key σ
  = (Ok (fresh (dom σ)), <[fresh (dom σ) := sent get_user_agent self ∅ api_version api_key]> σ).
Proof.
  unfold build_request_headers.
  erewrite bind_ok by apply new_dict_run.
  erewrite build_request_headers_tail by apply lookup_insert_eq.
  by rewrite insert_insert_eq.
Qed.

Lemma sent_User_Agent d api_version api_key :
  sent get_user_agent self d api_version api_key !! "User-Agent"
  = Some (get_user_agent (identifier (_http_client self))).
Proof.
  unfold sent. destruct api_version, api_key; by simplify_map_eq.
Qed.

Lemma sent_api_key d api_version key :
  sent get_user_agent self d api_version (Some key) !! "Caplena-API-Key"
  = Some key.
Proof. unfold sent. destruct api_version; by simplify_map_eq. Qed.

Lemma sent_api_key_None d api_version :
  sent get_user_agent self d api_version None !! "Caplena-API-Key"
  = d !! "Caplena-API-Key".
Proof.
  unfold sent. destruct api_version, (d !! "Accept"); by simplify_map_eq.
Qed.

Lemma sent_version d api_version api_key :
  sent get_user_agent self d api_version api_key !! "Caplena-API-Version"
  = match api_version with
    | DEFAULT => d !! "Caplena-API-Version"
    | VER_2021_12_01 => Some "2021-12-01"
    end.
Proof.
  unfold sent.
  destruct api_version, api_key, (d !! "Accept"); by simplify_map_eq.
Qed.

Lemma sent_Accept d api_version api_key :
  sent get_user_agent self d api_version api_key !! "Accept"
  = Some (default "application/json" (d !! "Accept")).
Proof.
  unfold sent.
  destruct api_version, api_key, (d !! "Accept") eqn:E; by simplify_map_eq.
Qed.

Lemma sent_other d api_version api_key k :
  k ∉ reserved_headers → k ≠ "Accept" →
  sent get_user_agent self d api_version api_key !! k = d !! k.
Proof.
  unfold reserved_headers. intros Hk Ha.
  assert (k ≠ "User-Agent") by set_solver.
  assert (k ≠ "Caplena-API-Key") by set_solver.
  assert (k ≠ "Caplena-API-Version") by set_solver.
  unfold sent.
  destruct api_version, api_key, (d !! "Accept"); by simplify_map_eq.
Qed.

(** The headers the requestor does overwrite: the user agent always, the API
    key when one is passed, the API version when it is not the default. *)
Lemma reserved_headers_overwritten l d σ api_version api_key :
  σ !! l = Some d →
  ∃ l' out σ',
    build_request_headers get_user_agent self (Some l) api_version api_key σ
    = (Ok l', σ')
    ∧ σ' !! l' = Some out
    ∧ out !! "User-Agent"
      = Some (get_user_agent (identifier (_http_client self)))
    ∧ (∀ key, api_key = Some key → out !! "Caplena-API-Key" = Some key)
    ∧ (api_version ≠ DEFAULT →
       Ok <$> out !! "Caplena-API-Version" = Some (version api_version)).
Proof.
  intros H. eexists _, _, _.
  split; [by apply build_request_headers_run|].
  split; [apply lookup_insert_eq|].
  split; [apply sent_User_Agent|].
  split.
  - intros key ->. apply sent_api_key.
  - intros Hv. rewrite sent_version. by destruct api_version.
Qed.

(** With an API key, a caller-supplied [Caplena-API-Key] is replaced. *)
Example api_key_evil_real :
  ∃ l' out σ',
    build_request_headers get_user_agent self (Some 1%positive) DEFAULT
      (Some "real") {[ 1%positive := {[ "Caplena-API-Key" := "evil" ]} ]}
    = (Ok l', σ')
    ∧ σ' !! l' = Some out
    ∧ out !! "Caplena-API-Key" = Some "real".
Proof.
  eexists _, _, _.
  split; [by apply build_request_headers_run, lookup_singleton_eq|].
  split; [apply lookup_insert_eq|].
  apply sent_api_key.
Qed.

(** C2. Without an API key the reserved header [Caplena-API-Key] is not
    overwritten: with [headers={"Caplena-API-Key": "evil"}] and
    [api_key=None] the headers that are returned carry the value of the
    caller, [evil]. *)
Theorem api_key_header_spoofed :
  ∃ l' out σ',
    build_request_headers get_user_agent self (Some 1%positive) DEFAULT None
      {[ 1%positive := {[ "Caplena-API-Key" := "evil" ]} ]}
    = (Ok l', σ')
    ∧ σ' !! l' = Some out
    ∧ out !! "Caplena-API-Key" = Some "evil".
Proof.
  eexists _, _, _.
  split; [by apply build_request_headers_run, lookup_singleton_eq|].
  split; [apply lookup_insert_eq|].
  rewrite sent_api_key_None. apply lookup_singleton_eq.
Qed.

(** Without a dictionary of the caller the version header is there exactly
    for the versions other than the default one. *)
Lemma version_header_without_caller_headers σ api_version api_key :
  ∃ l' out σ',
    build_request_headers get_user_agent self None api_version api_key σ
    = (Ok l', σ')
    ∧ σ' !! l' = Some out
    ∧ (out !! "Caplena-API-Version" = None ↔ api_version = DEFAULT).
Proof.
  eexists _, _, _.
  split; [apply build_request_headers_run_None|].
  split; [apply lookup_insert_eq|].
  rewrite sent_version. destruct api_version; by simplify_map_eq.
Qed.

(** C9. The version header is not always omitted for the default version:
    with [headers={"Caplena-API-Version": "1999-12-31"}] and
    [api_version=ApiVersion.DEFAULT] the headers that are returned carry
    [Caplena-API-Version], with the value of the caller. *)
Theorem version_header_present_for_default :
  ∃ l' out σ',
    build_request_headers get_user_agent self (Some 1%positive) DEFAULT None
      {[ 1%positive := {[ "Caplena-API-Version" := "1999-12-31" ]} ]}
    = (Ok l', σ')
    ∧ σ' !! l' = Some out
    ∧ out !! "Caplena-API-Version" = Some "1999-12-31".
Proof.
  eexists _, _, _.
  split; [by apply build_request_headers_run, lookup_singleton_eq|].
  split; [apply lookup_insert_eq|].
  rewrite sent_version. apply lookup_singleton_eq.
Qed.

(** C10. [build_request_headers] works on a copy: the dictionary of the
    caller, and every other dictionary of the store, is left as it was, the
    result being a new one; an entry of the caller under a key that is not
    reserved is in the result; [Accept] is [application/json] when the caller
    has no such entry, and the entry of the caller otherwise. *)
Theorem build_request_headers_copies l d σ api_version api_key :
  σ !! l = Some d →
  ∃ l' out σ',
    build_request_headers get_user_agent self (Some l) api_version api_key σ
    = (Ok l', σ')
    ∧ σ' !! l' = Some out
    ∧ l' ≠ l
    ∧ σ' !! l = Some d
    ∧ (∀ l0, l0 ≠ l' → σ' !! l0 = σ !! l0)
    ∧ (∀ k v, k ∉ reserved_headers → d !! k = Some v → out !! k = Some v)
    ∧ (d !! "Accept" = None → out !! "Accept" = Some "application/json")
    ∧ (∀ a, d !! "Accept" = Some a → out !! "Accept" = Some a).
Proof.
  intros H.
  assert (fresh (dom σ) ≠ l) as Hfresh.
  { intros Heq. rewrite <- Heq, fresh_not_allocated in H. done. }
  eexists _, _, _.
  split; [by apply build_request_headers_run|].
  split; [apply lookup_insert_eq|].
  split; [done|].
  split; [by rewrite lookup_insert_ne|].
  split; [intros l0 Hl0; by rewrite lookup_insert_ne|].
  split; [|split].
  - intros k v Hk Hd. destruct (decide (k = "Accept")) as [->|Ha].
    + rewrite sent_Accept. by rewrite Hd.
    + by rewrite sent_other.
  - intros Ha. rewrite sent_Accept. by rewrite Ha.
  - intros a Ha. rewrite sent_Accept. by rewrite Ha.
Qed.

End HeaderFacts.

Lemma build_request_headers_copies_witness :
  let ua := λ identifier : string, "caplena-python/" +:+ identifier in
  let self := Api.Build_ApiRequestor (Api.Build_HttpClient "requests") in
  let d : gmap string string :=
    {[ "Accept" := "text/csv"; "X-Trace" := "42"; "User-Agent" := "curl" ]} in
  ∃ l' out σ',
    Api.build_request_headers ua self (Some 1%positive) Api.VER_2021_12_01
      (Some "real") {[ 1%positive := d ]}
    = (Ok l', σ')
    ∧ σ' !! l' = Some out
    ∧ l' ≠ 1%positive
    ∧ σ' !! 1%positive = Some d
    ∧ (∀ l0, l0 ≠ l' → σ' !! l0 = ({[ 1%positive := d ]} : gmap loc _) !! l0)
    ∧ (∀ k v, k ∉ Api.reserved_headers → d !! k = Some v → out !! k = Some v)
    ∧ (d !! "Accept" = None → out !! "Accept" = Some "application/json")
    ∧ (∀ a, d !! "Accept" = Some a → out !! "Accept" = Some a).
Proof.
  intros ua self d.
  apply (build_request_headers_copies ua self 1%positive d).
  reflexivity.
Defined.

(** ** The dispatcher *)

Lemma call_keywords_accepted {S A} f parameters keywords (body : M S A) :
  Forall (λ k, k ∈ parameters) keywords →
  call_keywords f parameters keywords body = body.
Proof.
  intros Hall. unfold call_keywords.
  destruct (list_find _ keywords) as [[i k]|] eqn:E; [|done].
  apply list_find_Some in E as (Hi & Hk & _).
  rewrite Forall_forall in Hall. exfalso. apply Hk, Hall.
  by eapply list_elem_of_lookup_2.
Qed.


Section DispatcherFacts.

Import Http Endpoint.

Context {ApiFilter ApiOrdering : Type}.
Variable get_user_agent : string → string.
Variable append_path : string → string → outcome string.
Variable build_qualified_uri :
  string → gmap string string → gmap string string → outcome string.
Variable HttpRetry : Type.
Variable request :
  Api.HttpClient → string → Requests.HttpMethod → loc → option val →
  option Z → option HttpRetry → M Api.dicts HttpResponse.
Variable self : BaseController.

Implicit Types (σ : gmap loc (gmap string string)).

Lemma DEFAULT_ALLOWED_CODES_eq :
  DEFAULT_ALLOWED_CODES = {[ 200%Z ]}
  ∧ DEFAULT_ALLOWED_POST_CODES = {[ 201%Z ]}
  ∧ DEFAULT_ALLOWED_DELETE_CODES = {[ 204%Z ]}.
Proof. done. Qed.

(** The keywords of the call in [post], [put], [patch] and [delete] are
    parameters of the verb that is called; those of the call in [get] are
    not. *)
Lemma keywords_of_the_calls :
  Forall (λ k, k ∈ Requests.post_parameters)
    [ "base_uri"; "path"; "api_key"; "path_params"; "query_params"; "json" ]
  ∧ Forall (λ k, k ∈ Requests.delete_parameters)
      [ "base_uri"; "path"; "api_key"; "path_params"; "query_params" ]
  ∧ ¬ Forall (λ k, k ∈ Requests.get_parameters)
        [ "base_uri"; "path"; "api_key"; "path_params"; "query_params";
          "filter"; "order_by" ].
Proof.
  split; [|split].
  - repeat constructor.
  - repeat constructor.
  - intros H. rewrite Forall_forall in H.
    assert ("filter" ∈ Requests.get_parameters) as Hin.
    { apply H. repeat constructor. }
    unfold Requests.get_parameters in Hin.
    repeat (apply elem_of_cons in Hin as [Heq|Hin]; [discriminate Heq|]).
    by apply elem_of_nil in Hin.
Qed.

(** The status check, once the requestor has returned a response. *)
Lemma status_check (allowed_codes : gset Z) response σ :
  (if decide (status_code response ∉ allowed_codes)
   then raise_from (Requests.build_exc (api_requestor (_config self)) response)
   else ret response) σ
  = if decide (status_code response ∈ allowed_codes)
    then (Ok response, σ)
    else (Raise (AttributeError
            "'ApiRequestor' object has no attribute 'build_exc'"), σ).
Proof.
  destruct (decide (status_code response ∈ allowed_codes)) as [Hin|Hout].
  - by rewrite decide_False by (intros H; by apply H).
  - by rewrite decide_True by done.
Qed.

(** What the four verbs other than [get] make of the outcome of the
    requestor. *)
Lemma post_run path allowed_codes path_params query_params json σ :
  post get_user_agent append_path build_qualified_uri HttpRetry request self
    path allowed_codes path_params query_params json σ
  = match Requests.post get_user_agent append_path build_qualified_uri
            HttpRetry request (api_requestor (_config self))
            (api_base_uri (_config self)) path Api.DEFAULT
            (api_key (_config self)) path_params query_params json None None
            None σ with
    | (Ok response, σ') =>
        if decide (status_code response ∈ default {[ 201%Z ]} allowed_codes)
        then (Ok response, σ')
        else (Raise (AttributeError
                "'ApiRequestor' object has no attribute 'build_exc'"), σ')
    | (Raise e, σ') => (Raise e, σ')
    end.
Proof.
  unfold post.
  rewrite call_keywords_accepted by apply keywords_of_the_calls.
  unfold bind. destruct (Requests.post _ _ _ _ _ _ _ _ _ _ _ _ _ _ _ _ _)
    as [[response|e] σ']; [|done].
  apply status_check.
Qed.

Lemma put_run path allowed_codes path_params query_params json σ :
  put get_user_agent append_path build_qualified_uri HttpRetry request self
    path allowed_codes path_params query_params json σ
  = match Requests.put get_user_agent append_path build_qualified_uri
            HttpRetry request (api_requestor (_config self))
            (api_base_uri (_config self)) path Api.DEFAULT
            (api_key (_config self)) path_params query_params json None None
            None σ with
    | (Ok response, σ') =>
        if decide (status_code response ∈ default {[ 200%Z ]} allowed_codes)
        then (Ok response, σ')
        else (Raise (AttributeError
                "'ApiRequestor' object has no attribute 'build_exc'"), σ')
    | (Raise e, σ') => (Raise e, σ')
    end.
Proof.
  unfold put.
  rewrite call_keywords_accepted by apply keywords_of_the_calls.
  unfold bind. destruct (Requests.put _ _ _ _ _ _ _ _ _ _ _ _ _ _ _ _ _)
    as [[response|e] σ']; [|done].
  apply status_check.
Qed.

Lemma patch_run path allowed_codes path_params query_params json σ :
  patch get_user_agent append_path build_qualified_uri HttpRetry request self
    path allowed_codes path_params query_params json σ
  = match Requests.patch get_user_agent append_path build_qualified_uri
            HttpRetry request (api_requestor (_config self))
            (api_base_uri (_config self)) path Api.DEFAULT
            (api_key (_config self)) path_params query_params json None None
            None σ with
    | (Ok response, σ') =>
        if decide (status_code response ∈ default {[ 200%Z ]} allowed_codes)
        then (Ok response, σ')
        else (Raise (AttributeError
                "'ApiRequestor' object has no attribute 'build_exc'"), σ')
    | (Raise e, σ') => (Raise e, σ')
    end.
Proof.
  unfold patch.
  rewrite call_keywords_accepted by apply keywords_of_the_calls.
  unfold bind. destruct (Requests.patch _ _ _ _ _ _ _ _ _ _ _ _ _ _ _ _ _)
    as [[response|e] σ']; [|done].
  apply status_check.
Qed.

Lemma delete_run path allowed_codes path_params query_params σ :
  delete get_user_agent append_path build_qualified_uri HttpRetry request self
    path allowed_codes path_params query_params σ
  = match Requests.delete get_user_agent append_path build_qualified_uri
            HttpRetry request (api_requestor (_config self))
            (api_base_uri (_config self)) path Api.DEFAULT
            (api_key (_config self)) path_params query_params None None
            None σ with
    | (Ok response, σ') =>
        if decide (status_code response ∈ default {[ 204%Z ]} allowed_codes)
        then (Ok response, σ')
        else (Raise (AttributeError
                "'ApiRequestor' object has no attribute 'build_exc'"), σ')
    | (Raise e, σ') => (Raise e, σ')
    end.
Proof.
  unfold delete.
  rewrite call_keywords_accepted by apply keywords_of_the_calls.
  unfold bind. destruct (Requests.delete _ _ _ _ _ _ _ _ _ _ _ _ _ _ _ _)
    as [[response|e] σ']; [|done].
  apply status_check.
Qed.

(** What does hold of the four verbs other than [get]: a response whose
    status code is allowed is returned as the requestor returned it, and a
    failure of the requestor goes through as it is. *)
Lemma verbs_return_allowed_response path allowed_codes path_params
    query_params json response σ σ' :
  let requestor := api_requestor (_config self) in
  let base_uri := api_base_uri (_config self) in
  let key := api_key (_config self) in
  (Requests.post get_user_agent append_path build_qualified_uri HttpRetry
     request requestor base_uri path Api.DEFAULT key path_params query_params
     json None None None σ = (Ok response, σ') →
   status_code response ∈ default {[ 201%Z ]} allowed_codes →
   post get_user_agent append_path build_qualified_uri HttpRetry request self
     path allowed_codes path_params query_params json σ = (Ok response, σ'))
  ∧ (Requests.put get_user_agent append_path build_qualified_uri HttpRetry
       request requestor base_uri path Api.DEFAULT key path_params
       query_params json None None None σ = (Ok response, σ') →
     status_code response ∈ default {[ 200%Z ]} allowed_codes →
     put get_user_agent append_path build_qualified_uri HttpRetry request self
       path allowed_codes path_params query_params json σ = (Ok response, σ'))
  ∧ (Requests.patch get_user_agent append_path build_qualified_uri HttpRetry
       request requestor base_uri path Api.DEFAULT key path_params
       query_params json None None None σ = (Ok response, σ') →
     status_code response ∈ default {[ 200%Z ]} allowed_codes →
     patch get_user_agent append_path build_qualified_uri HttpRetry request
       self path allowed_codes path_params query_params json σ
     = (Ok response, σ'))
  ∧ (Requests.delete get_user_agent append_path build_qualified_uri HttpRetry
       request requestor base_uri path Api.DEFAULT key path_params
       query_params None None None σ = (Ok response, σ') →
     status_code response ∈ default {[ 204%Z ]} allowed_codes →
     delete get_user_agent append_path build_qualified_uri HttpRetry request
       self path allowed_codes path_params query_params σ
     = (Ok response, σ')).
Proof.
  intros requestor base_uri key. subst requestor base_uri key.
  split; [|split; [|split]]; intros Hrun Hin.
  - by rewrite post_run, Hrun, decide_True.
  - by rewrite put_run, Hrun, decide_True.
  - by rewrite patch_run, Hrun, decide_True.
  - by rewrite delete_run, Hrun, decide_True.
Qed.


End DispatcherFacts.


(** ** Resource objects *)

(** Induction on values, with the elements of a list as premises. *)
Lemma val_list_ind (P : val → Prop) :
  P VNone → (∀ b, P (VBool b)) → (∀ z, P (VInt z)) → (∀ s, P (VStr s)) →
  (∀ items, Forall P items → P (VList items)) →
  (∀ entries, P (VDict entries)) → (∀ ref, P (VObj ref)) →
  (∀ ref, P (VController ref)) →
  ∀ v, P v.
Proof.
  intros HNone HBool HInt HStr HList HDict HObj HController.
  fix IH 1. intros [| b | z | s | items | entries | ref | ref].
  - exact HNone.
  - apply HBool.
  - apply HInt.
  - apply HStr.
  - apply HList. induction items as [|i items IHitems]; constructor.
    + apply IH.
    + exact IHitems.
  - apply HDict.
  - apply HObj.
  - apply HController.
Qed.

Section ObjectFacts.

Import Endpoint.

Implicit Types (σ : gmap loc BaseObject) (o : BaseObject) (self : loc).
Implicit Types (attrs : gmap string val) (cls : Schema).

Lemma deref_run self o σ : σ !! self = Some o → deref self σ = (Ok o, σ).
Proof. intros H. unfold deref. run. by rewrite H. Qed.

Lemma update_run self o f σ :
  σ !! self = Some o → update self f σ = (Ok tt, <[self := f o]> σ).
Proof. intros H. unfold update. by erewrite bind_ok by by apply deref_run. Qed.

Lemma attrs_getitem_run self o field σ :
  σ !! self = Some o →
  attrs_getitem self field σ
  = (match _attrs o !! field with
     | Some attr => Ok attr
     | None => Raise (KeyError field)
     end, σ).
Proof.
  intros H. unfold attrs_getitem. erewrite bind_ok by by apply deref_run.
  by destruct (_attrs o !! field).
Qed.

Lemma with_controller_same o : with_controller (_controller o) o = o.
Proof. by destruct o. Qed.

Lemma partial_dict_lookup attrs (keys : gset string) k :
  partial_dict attrs keys !! k = if decide (k ∈ keys) then attrs !! k else None.
Proof.
  unfold partial_dict. case_decide as Hk.
  - destruct (attrs !! k) as [v|] eqn:E.
    + by apply map_lookup_filter_Some.
    + apply map_lookup_filter_None. left. done.
  - apply map_lookup_filter_None. right. intros v _. done.
Qed.

(** Construction: a new object whose fields are the declared entries of
    the input, with an empty dirty set and no controller. *)
Lemma BaseObject__init___run cls attrs σ :
  BaseObject__init__ cls attrs σ
  = (Ok (fresh (dom σ)),
     <[fresh (dom σ) :=
         mkBaseObject cls (partial_dict attrs (__fields__ cls)) ∅ None ∅]> σ).
Proof.
  unfold BaseObject__init__, object__new__, refresh_from.
  erewrite bind_ok by reflexivity.
  erewrite bind_ok by (apply update_run, lookup_insert_eq).
  erewrite bind_ok by (
    erewrite bind_ok by (apply deref_run, lookup_insert_eq);
    erewrite bind_ok by (apply update_run, lookup_insert_eq);
    apply update_run, lookup_insert_eq).
  run. by rewrite !insert_insert_eq.
Qed.

(** Once [self] holds the controller, the recursive helper changes nothing,
    whatever the attribute: it only ever assigns the controller of [self]. *)
Lemma _recursive_controller_set_self_only attr self o value σ :
  σ !! self = Some o → _controller o = value →
  _recursive_controller_set self attr value σ = (Ok tt, σ).
Proof.
  intros Hself Hc. induction attr as [| | | | items IH | | |] using val_list_ind;
    try reflexivity.
  - cbn. induction IH as [|i items Hi _ IHitems]; [reflexivity|].
    erewrite bind_ok by apply Hi. apply IHitems.
  - cbn. erewrite update_run by done.
    subst value. by rewrite with_controller_same, insert_id.
Qed.

Lemma set_controller_loop fields self o value σ :
  σ !! self = Some o → _controller o = value →
  for_each fields (λ field,
    let* attr := attrs_getitem self field in
    _recursive_controller_set self attr value) σ
  = match first_missing (_attrs o) fields with
    | Some f => (Raise (KeyError f), σ)
    | None => (Ok tt, σ)
    end.
Proof.
  intros Hself Hc. unfold first_missing.
  induction fields as [|f fields IH]; [reflexivity|].
  cbn. case_decide as Hf.
  - cbn. erewrite bind_raise; [done|]. erewrite bind_raise; [done|].
    erewrite attrs_getitem_run by done. by rewrite Hf.
  - destruct (_attrs o !! f) as [attr|] eqn:E; [|done].
    erewrite bind_ok; last first.
    { erewrite bind_ok; last first.
      { erewrite attrs_getitem_run by done. by rewrite E. }
      by eapply _recursive_controller_set_self_only. }
    rewrite IH. by destruct (list_find _ fields) as [[? ?]|].
Qed.

(** The setter of [controller]: the controller of [self] is assigned, and
    nothing else in the store; the call raises [KeyError] at the first
    declared field without an entry. *)
Lemma set_controller_run self o value σ :
  σ !! self = Some o →
  set_controller self value σ
  = match first_missing (_attrs o) (elements (__fields__ (cls o))) with
    | Some f => (Raise (KeyError f), <[self := with_controller value o]> σ)
    | None => (Ok tt, <[self := with_controller value o]> σ)
    end.
Proof.
  intros Hself. unfold set_controller.
  erewrite bind_ok by by apply update_run.
  erewrite bind_ok by apply deref_run, lookup_insert_eq.
  erewrite set_controller_loop by (apply lookup_insert_eq || reflexivity).
  done.
Qed.

(** No other object of the store is touched by the setter. *)
Lemma set_controller_frame self o value σ l :
  σ !! self = Some o → l ≠ self →
  (set_controller self value σ).2 !! l = σ !! l.
Proof.
  intros Hself Hl. erewrite set_controller_run by done.
  destruct (first_missing _ _); cbn; by rewrite lookup_insert_ne.
Qed.

(** C3. The controller does not reach the nested objects. A parent holding
    one child directly and two in a list is given controller [7]: the parent
    has it afterwards, the children still have none;
    [_recursive_controller_set] assigns [self._controller] where the nested
    object was meant. *)
Theorem controller_not_propagated :
  let Child := mkSchema "Child" {[ "name" ]} ∅ in
  let Parent := mkSchema "Parent" {[ "child"; "children" ]} ∅ in
  let program : M heap (loc * loc * loc) :=
    let* c1 := BaseObject__init__ Child {[ "name" := VStr "a" ]} in
    let* c2 := BaseObject__init__ Child {[ "name" := VStr "b" ]} in
    let* p := BaseObject__init__ Parent
                {[ "child" := VObj c1; "children" := VList [VObj c1; VObj c2] ]} in
    set_controller p (Some 7%positive) ;;
    ret (p, c1, c2) in
  ∃ p c1 c2 σ,
    program ∅ = (Ok (p, c1, c2), σ)
    ∧ _controller <$> σ !! p = Some (Some 7%positive)
    ∧ _controller <$> σ !! c1 = Some None
    ∧ _controller <$> σ !! c2 = Some None.
Proof.
  intros Child Parent program. subst Child Parent program.
  exists 3%positive, 1%positive, 2%positive. eexists.
  split; [vm_compute; reflexivity|].
  repeat split; vm_compute; reflexivity.
Qed.

(** The two field branches of [__setattr__]. *)
Lemma setattr_mutable_run σ self o name value :
  σ !! self = Some o →
  name ∈ __fields__ (cls o) → name ∈ __mutable__ (cls o) →
  __setattr__ self name value σ
  = (Ok tt,
     <[self := mkBaseObject (cls o) (<[name := value]> (_attrs o))
                 ({[name]} ∪ _unpersisted_attributes o)
                 (_controller o) (__dict__ o)]> σ).
Proof.
  intros Hself Hfield Hmut. unfold __setattr__.
  erewrite bind_ok by by apply deref_run.
  rewrite decide_True by done.
  erewrite bind_ok by by apply update_run.
  erewrite update_run by apply lookup_insert_eq.
  by rewrite insert_insert_eq.
Qed.

Lemma setattr_immutable_run σ self o name value :
  σ !! self = Some o →
  name ∈ __fields__ (cls o) → name ∉ __mutable__ (cls o) →
  __setattr__ self name value σ
  = (Raise (AttributeError
       (name +:+ ". HINT: You cannot modify this attribute, as it is immutable.")),
     σ).
Proof.
  intros Hself Hfield Hmut. unfold __setattr__.
  erewrite bind_ok by by apply deref_run.
  rewrite decide_False by (intros [_ ?]; done).
  by rewrite decide_True by done.
Qed.

(** C6. On a declared field: a write to a mutable one stores the value and
    adds the name to the dirty set; a write to one that is not mutable raises
    ([AttributeError], with the hint that the attribute is immutable) and
    leaves the store, hence the field values and the dirty set, as it was; a
    deletion is always rejected ([ValueError]). *)
Theorem write_and_delete_declared_field σ self o name value :
  σ !! self = Some o →
  name ∈ __fields__ (cls o) →
  (name ∈ __mutable__ (cls o) →
   ∃ o',
     __setattr__ self name value σ = (Ok tt, <[self := o']> σ)
     ∧ _attrs o' = <[name := value]> (_attrs o)
     ∧ _unpersisted_attributes o' = {[name]} ∪ _unpersisted_attributes o
     ∧ name ∈ _unpersisted_attributes o'
     ∧ attrs_getitem self name (<[self := o']> σ)
       = (Ok value, <[self := o']> σ))
  ∧ (name ∉ __mutable__ (cls o) →
     ∃ msg, __setattr__ self name value σ = (Raise (AttributeError msg), σ))
  ∧ (∃ msg, __delattr__ self name σ = (Raise (ValueError msg), σ)).
Proof.
  intros Hself Hfield. split; [|split].
  - intros Hmut. eexists.
    split; [by apply (setattr_mutable_run σ self o)|].
    cbn. split; [done|]. split; [done|].
    split; [apply elem_of_union; left; by apply elem_of_singleton|].
    erewrite attrs_getitem_run by apply lookup_insert_eq.
    cbn. by rewrite lookup_insert_eq.
  - intros Hmut. eexists. by apply (setattr_immutable_run σ self o).
  - eexists. reflexivity.
Qed.

Lemma _recursive_dict_plain (d : loc → M heap (gmap string val)) v σ :
  plain v → _recursive_dict d v σ = (Ok v, σ).
Proof. by destruct v. Qed.

(** The loop of [dict] over fields that all hold plain values: every field
    is copied into the result. *)
Lemma dict_loop depth fields self o σ (acc : gmap string val) :
  σ !! self = Some o →
  (∀ f, f ∈ fields → ∃ v, _attrs o !! f = Some v ∧ plain v) →
  ∃ resource,
    fold_each fields acc (λ resource field,
      let* attr := attrs_getitem self field in
      let* exported := _recursive_dict (dict depth) attr in
      ret (<[field := exported]> resource)) σ
    = (Ok resource, σ)
    ∧ ∀ k, resource !! k = if decide (k ∈ fields) then _attrs o !! k
                           else acc !! k.
Proof.
  intros Hself. revert acc.
  induction fields as [|f fields IH]; intros acc Hplain.
  - exists acc. split; [reflexivity|]. intros k.
    rewrite decide_False; [done|]. apply not_elem_of_nil.
  - destruct (Hplain f) as (v & Hv & Hpl); [left|].
    destruct (IH (<[f := v]> acc)) as (resource & Hrun & Hlookup).
    { intros g Hg. apply Hplain. by right. }
    exists resource. split.
    + cbn. erewrite bind_ok; [exact Hrun|].
      erewrite bind_ok by (erewrite attrs_getitem_run by done; by rewrite Hv).
      by erewrite bind_ok by by apply _recursive_dict_plain.
    + intros k. rewrite Hlookup.
      destruct (decide (k = f)) as [->|Hk].
      * rewrite (decide_True (P := f ∈ f :: fields)) by left.
        case_decide; [done|]. by rewrite lookup_insert_eq.
      * rewrite lookup_insert_ne by done.
        case_decide as Hin.
        -- rewrite decide_True; [done|]. by right.
        -- rewrite decide_False; [done|].
           intros [?|?]%elem_of_cons; done.
Qed.

(** The export of an object whose entries are all declared fields and whose
    declared fields all hold plain values is its field dictionary. *)
Lemma dict_plain depth self o σ :
  σ !! self = Some o →
  (∀ f, f ∈ __fields__ (cls o) → ∃ v, _attrs o !! f = Some v ∧ plain v) →
  dom (_attrs o) ⊆ __fields__ (cls o) →
  dict (S depth) self σ = (Ok (_attrs o), σ).
Proof.
  intros Hself Hplain Hdom. cbn.
  erewrite bind_ok by by apply deref_run.
  destruct (dict_loop depth (elements (__fields__ (cls o))) self o σ ∅ Hself)
    as (resource & Hrun & Hlookup).
  { intros f Hf. apply Hplain. by apply elem_of_elements. }
  rewrite Hrun. do 2 f_equal. apply map_eq. intros k. rewrite Hlookup.
  case_decide as Hk; [done|]. rewrite lookup_empty. symmetry.
  apply not_elem_of_dom. intros Hin. apply Hk, elem_of_elements. auto.
Qed.

(** C7. Materialization keeps the entries of the input whose keys are
    declared fields and drops the others, without an error, whatever the
    input; and when every declared field has a plain value in the input, the
    export of the object is these entries and nothing else. *)
Theorem materialization_drops_unknown_fields cls attrs σ :
  private_free cls →
  ∃ self o σ',
    BaseObject__init__ cls attrs σ = (Ok self, σ')
    ∧ σ' !! self = Some o
    ∧ (∀ k, _attrs o !! k
            = if decide (k ∈ __fields__ cls) then attrs !! k else None)
    ∧ _unpersisted_attributes o = ∅
    ∧ ((∀ f, f ∈ __fields__ cls → ∃ v, attrs !! f = Some v ∧ plain v) →
       ∀ depth, dict (S depth) self σ' = (Ok (_attrs o), σ')).
Proof.
  intros _. eexists _, _, _.
  split; [apply BaseObject__init___run|].
  split; [apply lookup_insert_eq|].
  split; [intros k; apply partial_dict_lookup|].
  split; [reflexivity|].
  intros Hplain depth. apply dict_plain.
  - apply lookup_insert_eq.
  - cbn. intros f Hf. rewrite partial_dict_lookup, decide_True by done. auto.
  - cbn. intros k [v Hk]%elem_of_dom.
    rewrite partial_dict_lookup in Hk. by case_decide.
Qed.

(** The assignment of [controller] on an object whose class does not
    declare a field of that name is the call of the setter. *)
Lemma setattr_controller_run self o value σ :
  σ !! self = Some o → "controller" ∉ __fields__ (cls o) →
  setattr_controller self value σ = set_controller self value σ.
Proof.
  intros Hself Hc. unfold setattr_controller.
  erewrite bind_ok by by apply deref_run.
  by rewrite decide_False.
Qed.

(** [build_obj] for a class whose [parse_obj] is the plain construction. *)
Lemma build_obj_run cls attrs controller σ :
  "controller" ∉ __fields__ cls →
  let self := fresh (dom σ) in
  let o := mkBaseObject cls (partial_dict attrs (__fields__ cls)) ∅
             controller ∅ in
  build_obj (mkResource cls (construct cls)) (VDict attrs) controller σ
  = match first_missing (partial_dict attrs (__fields__ cls))
            (elements (__fields__ cls)) with
    | Some f => (Raise (KeyError f), <[self := o]> σ)
    | None => (Ok self, <[self := o]> σ)
    end.
Proof.
  intros Hc self o. unfold build_obj. cbn.
  erewrite bind_ok by apply BaseObject__init___run.
  unfold bind at 1.
  erewrite setattr_controller_run; [|apply lookup_insert_eq|done].
  erewrite set_controller_run by apply lookup_insert_eq.
  cbn. rewrite insert_insert_eq.
  by destruct (first_missing _ _).
Qed.

(** On [BaseObject] itself [parse_obj] is abstract, and so is [build_obj]. *)
Lemma build_obj_abstract cls obj controller σ :
  build_obj (mkResource cls (BaseObject_parse_obj cls)) obj controller σ
  = (Raise (NotImplementedError
       (__name__ cls +:+ " must implement the classmethod `_parse_obj`.")), σ).
Proof. reflexivity. Qed.

Lemma first_missing_None attrs fields :
  first_missing attrs fields = None ↔ ∀ f, f ∈ fields → is_Some (attrs !! f).
Proof.
  unfold first_missing. rewrite fmap_None, list_find_None, Forall_forall.
  split; intros H f Hf; specialize (H f Hf).
  - by apply not_eq_None_Some.
  - by apply not_eq_None_Some.
Qed.

Lemma first_missing_Some attrs fields f :
  first_missing attrs fields = Some f → f ∈ fields ∧ attrs !! f = None.
Proof.
  unfold first_missing. intros ([i g] & Hfind & ->)%fmap_Some.
  apply list_find_Some in Hfind as (Hi & Hg & _). split; [|done].
  by eapply list_elem_of_lookup_2.
Qed.

(** [build_obj], by whether a declared field is missing from the input. *)
Lemma build_obj_cases cls attrs controller σ :
  "controller" ∉ __fields__ cls →
  let materialized :=
    build_obj (mkResource cls (construct cls)) (VDict attrs) controller σ in
  ((∀ f, f ∈ __fields__ cls → is_Some (attrs !! f))
   ∧ materialized
     = (Ok (fresh (dom σ)),
        <[fresh (dom σ) :=
            mkBaseObject cls (partial_dict attrs (__fields__ cls)) ∅
              controller ∅]> σ))
  ∨ (∃ f σ', f ∈ __fields__ cls ∧ attrs !! f = None
             ∧ materialized = (Raise (KeyError f), σ')).
Proof.
  intros Hc materialized. subst materialized. rewrite build_obj_run by done.
  destruct (first_missing _ _) as [f|] eqn:E.
  - right. apply first_missing_Some in E as [Hf%elem_of_elements E].
    rewrite partial_dict_lookup, decide_True in E by done.
    by eexists _, _.
  - left. split; [|done]. intros f Hf.
    destruct (proj1 (first_missing_None _ _) E f) as [v Hv].
    { by apply elem_of_elements. }
    rewrite partial_dict_lookup, decide_True in Hv by done. eauto.
Qed.

(** C8. Materialization by [build_obj] raises exactly when a declared field
    is missing from the input, and then it is [KeyError] for such a field;
    when every declared field has an entry it returns the object, with the
    declared entries of the input, an empty dirty set and the controller
    attached, whatever else the input holds: an unknown key is no reason to
    raise. Every declared field is required: the classes have no notion of a
    default. *)
Theorem build_obj_requires_declared_fields cls attrs controller σ :
  private_free cls →
  "controller" ∉ __fields__ cls →
  let materialize := build_obj (mkResource cls (construct cls)) in
  ((∃ e σ', materialize (VDict attrs) controller σ = (Raise e, σ'))
   ↔ (∃ f, f ∈ __fields__ cls ∧ attrs !! f = None))
  ∧ (∀ e σ', materialize (VDict attrs) controller σ = (Raise e, σ') →
       ∃ f, e = KeyError f ∧ f ∈ __fields__ cls ∧ attrs !! f = None)
  ∧ ((∀ f, f ∈ __fields__ cls → is_Some (attrs !! f)) →
     ∃ self o σ',
       materialize (VDict attrs) controller σ = (Ok self, σ')
       ∧ σ' !! self = Some o
       ∧ _controller o = controller
       ∧ _unpersisted_attributes o = ∅
       ∧ ∀ k, _attrs o !! k
              = if decide (k ∈ __fields__ cls) then attrs !! k else None).
Proof.
  intros _ Hc materialize. subst materialize.
  destruct (build_obj_cases cls attrs controller σ Hc)
    as [[Hall Hrun]|(f & σ1 & Hf & Hmissing & Hrun)]; rewrite Hrun.
  - split; [|split].
    + split; [intros (e & σ' & H); discriminate H|].
      intros (f & Hf & Hmissing). destruct (Hall f Hf) as [v Hv]. congruence.
    + intros e σ' H. discriminate H.
    + intros _. eexists _, _, _. split; [reflexivity|].
      split; [apply lookup_insert_eq|]. cbn.
      split; [done|]. split; [done|]. intros k. apply partial_dict_lookup.
  - split; [|split].
    + split; [eauto|]. intros _. eauto.
    + intros e σ' [= <- _]. eauto.
    + intros Hall. destruct (Hall f Hf) as [v Hv]. congruence.
Qed.

End ObjectFacts.

Lemma private_free_Project :
  Endpoint.private_free (Endpoint.mkSchema "Project" {[ "id"; "name" ]} ∅).
Proof.
  unfold Endpoint.private_free. cbn.
  rewrite !elem_of_union, !elem_of_singleton.
  repeat split; intros [?|?]; discriminate.
Qed.

Lemma materialization_drops_unknown_fields_witness :
  let Project := Endpoint.mkSchema "Project" {[ "id"; "name" ]} ∅ in
  let input : gmap string val :=
    {[ "id" := VStr "r1"; "name" := VStr "Foo"; "unknown" := VInt 1 ]} in
  ∃ self σ',
    Endpoint.BaseObject__init__ Project input ∅ = (Ok self, σ')
    ∧ Endpoint.dict 1 self σ'
      = (Ok {[ "id" := VStr "r1"; "name" := VStr "Foo" ]}, σ').
Proof.
  intros Project input.
  destruct (materialization_drops_unknown_fields Project input ∅
              private_free_Project)
    as (self & o & σ' & Hinit & Hself & Hattrs & _ & Hexport).
  exists self, σ'. split; [exact Hinit|].
  rewrite Hexport.
  - do 2 f_equal. apply map_eq. intros k. rewrite Hattrs.
    subst Project input. cbn. case_decide as Hk.
    + apply elem_of_union in Hk as [->%elem_of_singleton| ->%elem_of_singleton];
        reflexivity.
    + assert (k ≠ "id") by (intros ->; apply Hk, elem_of_union; left;
                              by apply elem_of_singleton).
      assert (k ≠ "name") by (intros ->; apply Hk, elem_of_union; right;
                                by apply elem_of_singleton).
      by simplify_map_eq.
  - subst Project input. cbn.
    intros f [->%elem_of_singleton| ->%elem_of_singleton]%elem_of_union;
      eexists; (split; [reflexivity|exact I]).
Defined.

(** The example of the spec, evaluated. *)
Example materialization_example :
  let Project := Endpoint.mkSchema "Project" {[ "id"; "name" ]} ∅ in
  let input : gmap string val :=
    {[ "id" := VStr "r1"; "name" := VStr "Foo"; "unknown" := VInt 1 ]} in
  (let* self := Endpoint.BaseObject__init__ Project input in
   Endpoint.dict 1000 self) ∅
  = (Ok {[ "id" := VStr "r1"; "name" := VStr "Foo" ]},
     {[ 1%positive :=
          Endpoint.mkBaseObject Project
            {[ "id" := VStr "r1"; "name" := VStr "Foo" ]} ∅ None ∅ ]}).
Proof. vm_compute. reflexivity. Qed.

Lemma build_obj_requires_declared_fields_witness :
  let Project := Endpoint.mkSchema "Project" {[ "id"; "name" ]} ∅ in
  let resource := Endpoint.mkResource Project (Endpoint.construct Project) in
  let complete : gmap string val :=
    {[ "id" := VStr "r1"; "name" := VStr "Foo"; "unknown" := VInt 1 ]} in
  let incomplete : gmap string val :=
    {[ "id" := VStr "r1"; "unknown" := VInt 1 ]} in
  (∃ self o σ',
     Endpoint.build_obj resource (VDict complete) (Some 7%positive) ∅
     = (Ok self, σ')
     ∧ σ' !! self = Some o
     ∧ Endpoint._controller o = Some 7%positive
     ∧ Endpoint._attrs o !! "unknown" = None)
  ∧ (∃ e σ',
       Endpoint.build_obj resource (VDict incomplete) (Some 7%positive) ∅
       = (Raise e, σ')).
Proof.
  intros Project resource complete incomplete.
  assert ("controller" ∉ Endpoint.__fields__ Project) as Hc.
  { cbn. intros [H|H]%elem_of_union; apply elem_of_singleton in H;
      discriminate H. }
  destruct (build_obj_requires_declared_fields Project complete
              (Some 7%positive) ∅ private_free_Project Hc)
    as (_ & _ & Hreturns).
  destruct (build_obj_requires_declared_fields Project incomplete
              (Some 7%positive) ∅ private_free_Project Hc)
    as (Hraises & _ & _).
  split.
  - destruct Hreturns as (self & o & σ' & Hrun & Hself & Hctl & _ & Hattrs).
    + subst Project complete. cbn.
      intros f [->%elem_of_singleton| ->%elem_of_singleton]%elem_of_union;
        eexists; reflexivity.
    + exists self, o, σ'. split; [exact Hrun|]. split; [exact Hself|].
      split; [exact Hctl|]. rewrite Hattrs. subst Project complete. cbn.
      rewrite decide_False; [reflexivity|].
      intros [H|H]%elem_of_union; apply elem_of_singleton in H;
        discriminate H.
  - apply Hraises. exists "name". split; [|reflexivity].
    apply elem_of_union. right. by apply elem_of_singleton.
Defined.

Lemma write_and_delete_declared_field_witness :
  let Project := Endpoint.mkSchema "Project" {[ "id"; "name" ]} {[ "name" ]} in
  let o := Endpoint.mkBaseObject Project
             {[ "id" := VStr "r1"; "name" := VStr "Foo" ]} ∅ None ∅ in
  let σ : gmap loc Endpoint.BaseObject := {[ 1%positive := o ]} in
  (∃ o',
     Endpoint.__setattr__ 1%positive "name" (VStr "Bar") σ
     = (Ok tt, <[1%positive := o']> σ)
     ∧ Endpoint._attrs o' = <["name" := VStr "Bar"]> (Endpoint._attrs o)
     ∧ Endpoint._unpersisted_attributes o'
       = {["name"]} ∪ Endpoint._unpersisted_attributes o
     ∧ "name" ∈ Endpoint._unpersisted_attributes o'
     ∧ Endpoint.attrs_getitem 1%positive "name" (<[1%positive := o']> σ)
       = (Ok (VStr "Bar"), <[1%positive := o']> σ))
  ∧ (∃ msg, Endpoint.__setattr__ 1%positive "id" (VStr "r2") σ
            = (Raise (AttributeError msg), σ))
  ∧ (∃ msg, Endpoint.__delattr__ 1%positive "id" σ
            = (Raise (ValueError msg), σ)).
Proof.
  intros Project o σ.
  assert ("name" ∈ Endpoint.__fields__ (Endpoint.cls o)) as Hname.
  { apply elem_of_union. right. by apply elem_of_singleton. }
  assert ("id" ∈ Endpoint.__fields__ (Endpoint.cls o)) as Hid.
  { apply elem_of_union. left. by apply elem_of_singleton. }
  destruct (write_and_delete_declared_field σ 1%positive o "name" (VStr "Bar")
              eq_refl Hname) as (Hwrite & _ & _).
  destruct (write_and_delete_declared_field σ 1%positive o "id" (VStr "r2")
              eq_refl Hid) as (_ & Hrefuse & Hdelete).
  split; [|split].
  - apply Hwrite. cbn. by apply elem_of_singleton.
  - apply Hrefuse. cbn. intros H%elem_of_singleton. discriminate H.
  - exact Hdelete.
Defined.

(** ** Materialization of a response *)

Section BuildResponseFacts.

Import Http Endpoint.

Variable json_loads : string → outcome val.
Variable self : BaseController.
Variable resource : Resource.

(** Whatever the response, if its property [json] raises, so does
    [build_response], with the same exception. *)
Lemma build_response_json_raises response e response' σ :
  json json_loads response = (Raise e, response') →
  build_response json_loads self resource (response, σ)
  = (Raise e, (response', σ)).
Proof.
  intros H. unfold build_response, _retrieve_json_or_raise.
  erewrite bind_raise; [done|]. erewrite bind_raise; [done|].
  unfold on_fst. cbn. by rewrite H.
Qed.

(** And if it evaluates to [None], [build_response] goes for [build_exc]
    of the requestor, which [ApiRequestor] does not have. *)
Lemma build_response_json_None response response' σ :
  json json_loads response = (Ok VNone, response') →
  build_response json_loads self resource (response, σ)
  = (Raise (AttributeError
       "'ApiRequestor' object has no attribute 'build_exc'"),
     (response', σ)).
Proof.
  intros H. unfold build_response, _retrieve_json_or_raise.
  erewrite bind_raise; [done|].
  erewrite bind_ok by (unfold on_fst; cbn; by rewrite H).
  reflexivity.
Qed.

(** C5. A response with status 200 and an empty body, as the constructor
    builds it, makes [build_response] raise [AttributeError], not the API
    error: the access of [json] fails on the attribute [_json], which the
    constructor never assigns. And were [_json] initialised to [None], a
    response with the body [{}] would not be materialized either, although
    the body is there: the first access of [json] evaluates to [None], and
    the API error that is then meant is not built, the requestor having no
    [build_exc]. *)
Theorem build_response_defect σ :
  json_loads "{}" = Ok (VDict ∅) →
  let empty := HttpResponse__init__ 200 "OK" (Some "") None in
  let initialised := mkHttpResponse 200 "OK" (Some "{}") None (Some VNone) in
  build_response json_loads self resource (empty, σ)
  = (Raise (AttributeError "'HttpResponse' object has no attribute '_json'"),
     (empty, σ))
  ∧ build_response json_loads self resource (initialised, σ)
    = (Raise (AttributeError
         "'ApiRequestor' object has no attribute 'build_exc'"),
       (mkHttpResponse 200 "OK" (Some "{}") None (Some (VDict ∅)), σ)).
Proof.
  intros Hparse empty initialised. split.
  - by apply build_response_json_raises.
  - erewrite build_response_json_None; last first.
    { apply (json_first_parse json_loads initialised "{}" (VDict ∅)); done. }
    reflexivity.
Qed.

(** What does hold: once [_json] holds a parsed body with an entry for every
    declared field, [build_response] returns an object built from it, with
    this dispatcher as its controller. *)
Lemma build_response_cached_body cls attrs response σ :
  private_free cls →
  "controller" ∉ __fields__ cls →
  _json response = Some (VDict attrs) →
  (∀ f, f ∈ __fields__ cls → is_Some (attrs !! f)) →
  ∃ instance o σ',
    build_response json_loads self (mkResource cls (construct cls))
      (response, σ)
    = (Ok instance, (response, σ'))
    ∧ σ' !! instance = Some o
    ∧ _controller o = Some (ref self)
    ∧ (∀ k, _attrs o !! k
            = if decide (k ∈ __fields__ cls) then attrs !! k else None).
Proof.
  intros _ Hc Hcached Hall.
  unfold build_response, _retrieve_json_or_raise.
  erewrite bind_ok; last first.
  { erewrite bind_ok; last first.
    { unfold on_fst. cbn. erewrite json_cached by done. reflexivity. }
    reflexivity. }
  unfold on_snd. cbn. rewrite build_obj_run by done.
  destruct (first_missing _ _) as [f|] eqn:E.
  - apply first_missing_Some in E as [Hf%elem_of_elements E].
    rewrite partial_dict_lookup, decide_True in E by done.
    destruct (Hall f Hf) as [v Hv]. congruence.
  - eexists _, _, _. split; [reflexivity|].
    split; [apply lookup_insert_eq|].
    split; [reflexivity|]. intros k. apply partial_dict_lookup.
Qed.

End BuildResponseFacts.

Lemma build_response_defect_witness :
  let loads := λ s : string,
    if decide (s = "{}") then Ok (VDict ∅) else Raise (JSONDecodeError s) in
  let requestor := Api.Build_ApiRequestor (Api.Build_HttpClient "requests") in
  let self := Endpoint.mkBaseController 7%positive
    (Endpoint.mkConfiguration requestor (Requests.UriEnum Requests.PRODUCTION)
       (Some "key")) in
  let Project := Endpoint.mkSchema "Project" {[ "id"; "name" ]} ∅ in
  let resource := Endpoint.mkResource Project (Endpoint.construct Project) in
  let empty := Http.HttpResponse__init__ 200 "OK" (Some "") None in
  Endpoint.build_response loads self resource (empty, ∅)
  = (Raise (AttributeError "'HttpResponse' object has no attribute '_json'"),
     (empty, ∅)).
Proof.
  intros loads requestor self Project resource empty.
  exact (proj1 (build_response_defect loads self resource ∅ eq_refl)).
Defined.

(** ** More on resource objects: controller, refresh, export, writes *)

Section ObjectLaws.

Import Endpoint.

Implicit Types (σ : gmap loc BaseObject) (o : BaseObject) (self : loc).
Implicit Types (attrs : gmap string val) (cls : Schema).

Lemma controller_run self o σ :
  σ !! self = Some o →
  controller self σ
  = (match _controller o with
     | Some c => Ok c
     | None =>
         Raise (ValueError
           ("You cannot access the non-existing controller for this object. HINT: This object either "
            +:+ "does not have a controller attached, or you forgot to manually set the controller after initializing it. "
            +:+ "(object.controller = your_controller)"))
     end, σ).
Proof.
  intros H. unfold controller. erewrite bind_ok by by apply deref_run.
  by destruct (_controller o).
Qed.

Lemma set_controller_state self o value σ :
  σ !! self = Some o →
  (set_controller self value σ).2 = <[self := with_controller value o]> σ.
Proof.
  intros H. erewrite set_controller_run by done.
  by destruct (first_missing _ _).
Qed.

(** X1. Reading the controller after assigning one gives it back, also when
    the assignment itself raised [KeyError] on a declared field without an
    entry: the controller is stored before the fields are visited. *)
Theorem controller_get_after_set self o c σ :
  σ !! self = Some o →
  let σ' := (set_controller self (Some c) σ).2 in
  controller self σ' = (Ok c, σ').
Proof.
  intros H σ'. subst σ'. erewrite set_controller_state by done.
  by erewrite controller_run by apply lookup_insert_eq.
Qed.

(** X2. An object is detached until a controller is assigned: on an object
    that the constructor has just returned, and after [None] has been
    assigned as controller, the getter raises [ValueError]. *)
Theorem controller_detached cls attrs self o σ :
  private_free cls →
  σ !! self = Some o →
  (∃ new msg σ',
     BaseObject__init__ cls attrs σ = (Ok new, σ')
     ∧ controller new σ' = (Raise (ValueError msg), σ'))
  ∧ (∃ msg,
       controller self (set_controller self None σ).2
       = (Raise (ValueError msg), (set_controller self None σ).2)).
Proof.
  intros _ H. split.
  - eexists _, _, _. split; [apply BaseObject__init___run|].
    by erewrite controller_run by apply lookup_insert_eq.
  - eexists. erewrite set_controller_state by done.
    by erewrite controller_run by apply lookup_insert_eq.
Qed.

(** X3. Assigning the controller changes the controller of the object and
    nothing else: its fields, its dirty set and its class stay, and so does
    every other object of the store, whether the assignment returns or
    raises. *)
Theorem set_controller_changes_controller_only self o value σ :
  σ !! self = Some o →
  let σ' := (set_controller self value σ).2 in
  (∃ o', σ' !! self = Some o'
         ∧ _controller o' = value
         ∧ _attrs o' = _attrs o
         ∧ _unpersisted_attributes o' = _unpersisted_attributes o
         ∧ cls o' = cls o)
  ∧ (∀ l, l ≠ self → σ' !! l = σ !! l).
Proof.
  intros H σ'. subst σ'. erewrite set_controller_state by done. split.
  - eexists. split; [apply lookup_insert_eq|]. done.
  - intros l Hl. by rewrite lookup_insert_ne.
Qed.

Lemma refresh_from_run self o attrs σ :
  σ !! self = Some o →
  refresh_from self attrs σ
  = (Ok tt,
     <[self := mkBaseObject (cls o) (partial_dict attrs (__fields__ (cls o)))
                 ∅ (_controller o) (__dict__ o)]> σ).
Proof.
  intros H. unfold refresh_from.
  erewrite bind_ok by by apply deref_run.
  erewrite bind_ok by by apply update_run.
  erewrite update_run by apply lookup_insert_eq.
  by rewrite insert_insert_eq.
Qed.

(** X4. [refresh_from] with an input that has an entry for every declared
    field resets the object to that input: afterwards the dirty set is empty
    whatever had been written, the fields are the declared entries of the
    input and nothing else, whatever the object held before, and the
    controller is the one the object had. *)
Theorem refresh_from_replaces self o attrs σ :
  σ !! self = Some o →
  __fields__ (cls o) ⊆ dom attrs →
  ∃ o' σ',
    refresh_from self attrs σ = (Ok tt, σ')
    ∧ σ' !! self = Some o'
    ∧ _unpersisted_attributes o' = ∅
    ∧ _controller o' = _controller o
    ∧ dom (_attrs o') = __fields__ (cls o)
    ∧ (∀ k, k ∈ __fields__ (cls o) → _attrs o' !! k = attrs !! k)
    ∧ (∀ l, l ≠ self → σ' !! l = σ !! l).
Proof.
  intros H Hall. eexists _, _. split; [by apply refresh_from_run|].
  split; [apply lookup_insert_eq|]. cbn.
  split; [done|]. split; [done|].
  split; [|split].
  - apply set_eq. intros k. rewrite elem_of_dom, partial_dict_lookup.
    case_decide as Hk.
    + split; [done|]. intros _. by apply elem_of_dom, Hall.
    + split; [by intros [? ?]|done].
  - intros k Hk. by rewrite partial_dict_lookup, decide_True.
  - intros l Hl. by rewrite lookup_insert_ne.
Qed.

End ObjectLaws.

(** A computation that leaves the state as it found it. *)
Lemma bind_keeps_state {S A B} (m : M S A) (k : A → M S B) s :
  (m s).2 = s → (∀ a, (k a s).2 = s) → (bind m k s).2 = s.
Proof.
  intros Hm Hk. unfold bind. destruct (m s) as [[a|e] s1] eqn:E; cbn in *.
  - subst s1. apply Hk.
  - done.
Qed.

Lemma fold_each_keeps_state {S A B} (body : B → A → M S B) xs acc s :
  (∀ acc x, (body acc x s).2 = s) → (fold_each xs acc body s).2 = s.
Proof.
  intros Hbody. revert acc. induction xs as [|x xs IH]; intros acc; [done|].
  cbn. apply bind_keeps_state; auto.
Qed.

Section ExportLaws.

Import Endpoint.

Implicit Types (σ : gmap loc BaseObject) (o : BaseObject) (self : loc).
Implicit Types (d : loc → M heap (gmap string val)).

Lemma attrs_getitem_keeps_state self field σ :
  (attrs_getitem self field σ).2 = σ.
Proof.
  unfold attrs_getitem, deref. run.
  destruct (σ !! self) as [o|]; [|done]. by destruct (_attrs o !! field).
Qed.

Lemma _recursive_dict_keeps_state d :
  (∀ l σ, (d l σ).2 = σ) → ∀ attr σ, (_recursive_dict d attr σ).2 = σ.
Proof.
  intros Hd attr.
  induction attr as [| | | | items IH | | |] using val_list_ind; intros σ;
    try reflexivity.
  - cbn. apply bind_keeps_state; [|done].
    induction IH as [|i items Hi _ IHitems]; [done|].
    apply bind_keeps_state; [apply Hi|]. intros x.
    apply bind_keeps_state; [apply IHitems|done].
  - cbn. apply bind_keeps_state; [apply Hd|done].
Qed.

Lemma dict_keeps_state depth self σ : (dict depth self σ).2 = σ.
Proof.
  revert self σ. induction depth as [|depth IH]; intros self σ; [done|].
  cbn. apply bind_keeps_state.
  { unfold deref. run. by destruct (σ !! self). }
  intros o. apply fold_each_keeps_state. intros acc field.
  apply bind_keeps_state; [apply attrs_getitem_keeps_state|]. intros attr.
  apply bind_keeps_state; [by apply _recursive_dict_keeps_state|done].
Qed.

(** X5. An export reads the store and never writes it, whatever the depth
    of the nesting and whether it returns or raises. *)
Theorem dict_never_writes depth self σ :
  ∃ result, dict depth self σ = (result, σ).
Proof.
  exists (dict depth self σ).1.
  rewrite <- (dict_keeps_state depth self σ) at 3.
  by destruct (dict depth self σ).
Qed.

Lemma run_keeps_state {A} (m : M heap A) σ a σ' :
  (m σ).2 = σ → m σ = (a, σ') → σ' = σ.
Proof. intros H E. by rewrite E in H. Qed.

(** What [_recursive_dict] returns, by the kind of the attribute. *)
Lemma _recursive_dict_inv d attr v σ :
  (∀ l σ, (d l σ).2 = σ) →
  _recursive_dict d attr σ = (Ok v, σ) →
  (plain attr → v = attr)
  ∧ (∀ c, attr = VObj c → ∃ m, d c σ = (Ok m, σ) ∧ v = VDict m)
  ∧ (∀ items, attr = VList items →
     ∃ vs, v = VList vs ∧ length vs = length items).
Proof.
  intros Hd Hrun. split; [|split].
  - intros Hplain. rewrite _recursive_dict_plain in Hrun by done. congruence.
  - intros c ->. cbn in Hrun. unfold bind in Hrun.
    destruct (d c σ) as [[m|e] σ1] eqn:E; [|done].
    assert (σ1 = σ) as -> by (eapply (run_keeps_state (d c)); eauto).
    exists m. split; [done|]. unfold ret in Hrun. congruence.
  - intros items ->. cbn in Hrun.
    set (each := fix each (items : list val) : M heap (list val) :=
           match items with
           | [] => ret []
           | i :: rest =>
               let* x := _recursive_dict d i in
               let* xs := each rest in
               ret (x :: xs)
           end) in Hrun.
    assert (∀ items σ vs σ', each items σ = (Ok vs, σ') →
                             length vs = length items) as Hlen.
    { clear. intros items. induction items as [|i items IH]; intros σ vs σ'.
      - cbn. intros [= <- _]. done.
      - cbn. unfold bind at 1.
        destruct (_recursive_dict d i σ) as [[x|e] σ1]; [|done].
        unfold bind at 1.
        destruct (each items σ1) as [[xs|e] σ2] eqn:E; [|done].
        cbn. intros [= <- _]. cbn. f_equal. by eapply IH. }
    unfold bind in Hrun.
    destruct (each items σ) as [[vs|e] σ1] eqn:E; [|done].
    exists vs. split; [unfold ret in Hrun; congruence|]. by eapply Hlen.
Qed.

(** The loop of [dict], read backwards from a result. *)
Lemma dict_loop_inv d fields self o σ (acc r : gmap string val) σ' :
  σ !! self = Some o →
  (∀ l σ, (d l σ).2 = σ) →
  fold_each fields acc (λ resource field,
    let* attr := attrs_getitem self field in
    let* exported := _recursive_dict d attr in
    ret (<[field := exported]> resource)) σ
  = (Ok r, σ') →
  (∀ k, k ∈ fields →
        ∃ attr v, _attrs o !! k = Some attr
                  ∧ _recursive_dict d attr σ = (Ok v, σ)
                  ∧ r !! k = Some v)
  ∧ (∀ k, k ∉ fields → r !! k = acc !! k).
Proof.
  intros Hself Hd. revert acc.
  induction fields as [|f fields IH]; intros acc Hrun.
  - cbn in Hrun. injection Hrun as <- _. split.
    + intros k Hk. by apply elem_of_nil in Hk.
    + done.
  - cbn in Hrun. unfold bind at 1 in Hrun.
    unfold bind at 1 in Hrun.
    erewrite attrs_getitem_run in Hrun by done.
    destruct (_attrs o !! f) as [attr|] eqn:Hattr; [|done].
    unfold bind at 1 in Hrun.
    destruct (_recursive_dict d attr σ) as [[v|e] σ1] eqn:E; [|done].
    assert (σ1 = σ) as ->.
    { eapply (run_keeps_state (_recursive_dict d attr)); [|done].
      by apply _recursive_dict_keeps_state. }
    cbn in Hrun. apply IH in Hrun as [Hin Hout]. split.
    + intros k [->|Hk]%elem_of_cons; [|by apply Hin].
      destruct (decide (f ∈ fields)) as [Hf|Hf].
      * destruct (Hin f Hf) as (attr' & v' & Hattr' & Hv' & Hr).
        exists attr', v'. done.
      * exists attr, v. split; [done|]. split; [done|].
        by rewrite Hout, lookup_insert_eq.
    + intros k Hk. rewrite Hout.
      * apply lookup_insert_ne. intros ->. apply Hk. left.
      * intros Hk'. apply Hk. by right.
Qed.

(** X6. When an export returns, its keys are the declared fields, all of
    which had an entry, and the value under a field is the entry itself for
    a plain value, a dictionary for a nested object, and a list of the same
    length for a list. *)
Theorem dict_entries depth self o σ r σ' :
  σ !! self = Some o →
  dict (S depth) self σ = (Ok r, σ') →
  dom r = __fields__ (cls o)
  ∧ ∀ f, f ∈ __fields__ (cls o) →
      ∃ attr v,
        _attrs o !! f = Some attr ∧ r !! f = Some v
        ∧ (plain attr → v = attr)
        ∧ (∀ c, attr = VObj c → ∃ m, v = VDict m)
        ∧ (∀ items, attr = VList items →
           ∃ vs, v = VList vs ∧ length vs = length items).
Proof.
  intros Hself Hrun. cbn in Hrun.
  erewrite bind_ok in Hrun by by apply deref_run.
  apply (dict_loop_inv (dict depth) _ self o) in Hrun as [Hin Hout];
    [|done|apply dict_keeps_state].
  split.
  - apply set_eq. intros k. rewrite elem_of_dom. split.
    + intros [v Hv]. destruct (decide (k ∈ __fields__ (cls o))); [done|].
      rewrite Hout, lookup_empty in Hv; [done|].
      by rewrite elem_of_elements.
    + intros Hk. destruct (Hin k) as (attr & v & _ & _ & Hr).
      { by apply elem_of_elements. }
      eauto.
  - intros f Hf. destruct (Hin f) as (attr & v & Hattr & Hv & Hr).
    { by apply elem_of_elements. }
    exists attr, v. split; [done|]. split; [done|].
    apply _recursive_dict_inv in Hv as (Hplain & Hobj & Hlist);
      [|apply dict_keeps_state].
    split; [done|]. split; [|done].
    intros c Hc. destruct (Hobj c Hc) as (m & _ & Hm). eauto.
Qed.

(** X7. An object that holds itself in a declared field has no export:
    [dict] raises at every depth of recursion the interpreter allows. *)
Theorem dict_of_cycle_raises self o f σ :
  σ !! self = Some o →
  f ∈ __fields__ (cls o) →
  _attrs o !! f = Some (VObj self) →
  ∀ depth, ∃ e, dict depth self σ = (Raise e, σ).
Proof.
  intros Hself Hf Hattr depth.
  induction depth as [|depth IH]; [by eexists|].
  destruct (dict (S depth) self σ) as [[r|e] σ'] eqn:E.
  - exfalso. cbn in E. erewrite bind_ok in E by by apply deref_run.
    apply (dict_loop_inv (dict depth) _ self o) in E as [Hin _];
      [|done|apply dict_keeps_state].
    destruct (Hin f) as (attr & v & Hattr' & Hv & _).
    { by apply elem_of_elements. }
    rewrite Hattr in Hattr'. injection Hattr' as <-.
    apply _recursive_dict_inv in Hv as (_ & Hobj & _);
      [|apply dict_keeps_state].
    destruct (Hobj self eq_refl) as (m & Hm & _).
    destruct IH as [e He]. congruence.
  - exists e. f_equal.
    eapply (run_keeps_state (dict (S depth) self)); [|done].
    apply dict_keeps_state.
Qed.

End ExportLaws.

(** ** Sequences of statements on resource objects *)

Set Warnings "-clear-no-such-hyp".

Section SessionLaws.

Import Endpoint Session.

Implicit Types (σ : gmap loc BaseObject) (o : BaseObject) (self : loc).

Lemma write_all_run self o writes σ :
  σ !! self = Some o →
  Forall (λ w, w.1 ∈ __fields__ (cls o) ∧ w.1 ∈ __mutable__ (cls o)) writes →
  write_all self writes σ
  = (Ok tt,
     <[self := mkBaseObject (cls o)
                 (foldl (λ a w, <[w.1 := w.2]> a) (_attrs o) writes)
                 (list_to_set writes.*1 ∪ _unpersisted_attributes o)
                 (_controller o) (__dict__ o)]> σ).
Proof.
  intros Hself Hall. revert o σ Hself Hall.
  induction writes as [|[n v] writes IH]; intros o σ Hself Hall.
  - cbn. unfold ret. f_equal. rewrite union_empty_l_L.
    destruct o. by rewrite insert_id.
  - apply Forall_cons in Hall as [[Hf Hm] Hall]. unfold write_all. cbn.
    erewrite bind_ok by by apply setattr_mutable_run.
    fold (write_all self writes).
    erewrite IH; [|apply lookup_insert_eq|done].
    cbn. rewrite insert_insert_eq. do 3 f_equal. set_solver.
Qed.

(** X8. Writes to mutable declared fields add up: after a list of them the
    dirty set is the one before plus the names written, a field holds the
    last value written under its name or, if none was, the value it had,
    and the controller is the one before. *)
Theorem writes_accumulate self o writes σ :
  σ !! self = Some o →
  Forall (λ w, w.1 ∈ __fields__ (cls o) ∧ w.1 ∈ __mutable__ (cls o)) writes →
  ∃ o',
    write_all self writes σ = (Ok tt, <[self := o']> σ)
    ∧ _unpersisted_attributes o'
      = list_to_set writes.*1 ∪ _unpersisted_attributes o
    ∧ (∀ name, _attrs o' !! name
               = last_written name writes (_attrs o !! name))
    ∧ _controller o' = _controller o.
Proof.
  intros Hself Hall. eexists. split; [by apply write_all_run|].
  cbn. split; [done|]. split; [|done].
  intros name. clear Hall Hself. unfold last_written.
  generalize (_attrs o). induction writes as [|[n v] writes IH]; intros a.
  - done.
  - cbn. rewrite IH. f_equal. case_decide as Hn.
    + subst n. apply lookup_insert_eq.
    + by apply lookup_insert_ne.
Qed.

(** X9. A write shows in the export: on an object whose declared fields all
    hold plain values, writing a plain value to a mutable declared field and
    exporting gives the former fields with the new value under that name. *)
Theorem export_after_write depth self o name value σ :
  σ !! self = Some o →
  (∀ f, f ∈ __fields__ (cls o) → ∃ v, _attrs o !! f = Some v ∧ plain v) →
  dom (_attrs o) ⊆ __fields__ (cls o) →
  name ∈ __fields__ (cls o) → name ∈ __mutable__ (cls o) →
  plain value →
  ∃ σ',
    (__setattr__ self name value ;; dict (S depth) self) σ
    = (Ok (<[name := value]> (_attrs o)), σ').
Proof.
  intros Hself Hplain Hdom Hf Hm Hv. eexists.
  erewrite bind_ok by by apply setattr_mutable_run.
  set (o' := mkBaseObject (cls o) (<[name := value]> (_attrs o))
               ({[name]} ∪ _unpersisted_attributes o)
               (_controller o) (__dict__ o)).
  rewrite (dict_plain depth self o' (<[self := o']> σ));
    [reflexivity|apply lookup_insert_eq|..]; cbn.
  - intros f Hfield. destruct (decide (f = name)) as [->|Hne].
    + exists value. by rewrite lookup_insert_eq.
    + rewrite lookup_insert_ne by done. by apply Hplain.
  - rewrite dom_insert_L. set_solver.
Qed.

(** X11. A write under an ordinary name (no leading underscore, none of
    the public names of the classes) that is not a declared field is
    accepted without an error and is not a change of the resource: the
    fields, the dirty set and the controller are as before; the value is kept
    as an attribute of the instance. *)
Theorem write_undeclared_name self o name value σ :
  σ !! self = Some o →
  name ∉ __fields__ (cls o) →
  ordinary name →
  ∃ o',
    __setattr__ self name value σ = (Ok tt, <[self := o']> σ)
    ∧ _attrs o' = _attrs o
    ∧ _unpersisted_attributes o' = _unpersisted_attributes o
    ∧ _controller o' = _controller o
    ∧ __dict__ o' !! name = Some value.
Proof.
  intros Hself Hname _. eexists. split.
  - unfold __setattr__. erewrite bind_ok by by apply deref_run.
    rewrite decide_False by (intros [? _]; done).
    rewrite decide_False by done.
    by apply update_run.
  - cbn. by rewrite lookup_insert_eq.
Qed.

Lemma consistent_insert σ self o :
  (∀ l o, σ !! l = Some o → consistent o) → consistent o →
  ∀ l o', <[self := o]> σ !! l = Some o' → consistent o'.
Proof.
  intros Hσ Ho l o'. destruct (decide (l = self)) as [->|Hl].
  - rewrite lookup_insert_eq. by intros [= <-].
  - rewrite lookup_insert_ne by done. apply Hσ.
Qed.

Lemma exec_consistent s σ :
  covered σ s →
  (∀ l o, σ !! l = Some o → consistent o) →
  ∀ l o, (exec s σ).2 !! l = Some o → consistent o.
Proof.
  intros Hcov Hσ. destruct s as [cls attrs|self name value|self name
                                 |self value|self attrs]; cbn in *.
  - erewrite bind_ok by apply BaseObject__init___run. cbn.
    apply consistent_insert; [done|]. split; cbn; [set_solver|].
    intros k [v Hk]%elem_of_dom. rewrite partial_dict_lookup in Hk.
    by case_decide.
  - destruct (σ !! self) as [o|] eqn:Hself; [|done].
    destruct (Hσ _ _ Hself) as [Hdirty Hattrs].
    destruct (decide (name ∈ __fields__ (cls o))) as [Hf|Hf];
      [destruct (decide (name ∈ __mutable__ (cls o))) as [Hm|Hm]|].
    + erewrite setattr_mutable_run by done. cbn.
      apply consistent_insert; [done|]. split; cbn.
      * set_solver.
      * rewrite dom_insert_L. set_solver.
    + by erewrite setattr_immutable_run by done.
    + unfold __setattr__. erewrite bind_ok by by apply deref_run.
      rewrite decide_False by (intros [? _]; done).
      rewrite decide_False by done.
      erewrite update_run by done. cbn.
      apply consistent_insert; [done|]. by split.
  - done.
  - destruct Hcov as [o Hself].
    destruct (Hσ _ _ Hself) as [Hdirty Hattrs].
    unfold setattr_controller. erewrite bind_ok by by apply deref_run.
    case_decide as Hc.
    + destruct (decide ("controller" ∈ __mutable__ (cls o))) as [Hm|Hm].
      * erewrite setattr_mutable_run by done. cbn.
        apply consistent_insert; [done|]. split; cbn.
        -- set_solver.
        -- rewrite dom_insert_L. set_solver.
      * by erewrite setattr_immutable_run by done.
    + erewrite set_controller_state by done.
      apply consistent_insert; [done|]. by split.
  - destruct (σ !! self) as [o|] eqn:Hself; [|done].
    erewrite refresh_from_run by done. cbn.
    apply consistent_insert; [done|]. split; cbn; [set_solver|].
    intros k [v Hk]%elem_of_dom. rewrite partial_dict_lookup in Hk.
    by case_decide.
Qed.

(** X10. Whatever client code does with resource objects, starting from
    none (constructions and refreshes from inputs with every declared field,
    writes to declared fields or under ordinary names, deletions,
    assignments of the controller, in any order, exceptions caught), every
    object is consistent at the end: its dirty set names mutable declared
    fields only and its fields are declared fields only. *)
Theorem objects_stay_consistent script :
  all_covered script ∅ →
  ∀ l o, after script ∅ !! l = Some o →
    _unpersisted_attributes o ⊆ __fields__ (cls o) ∩ __mutable__ (cls o)
    ∧ dom (_attrs o) ⊆ __fields__ (cls o).
Proof.
  assert (∀ σ, all_covered script σ →
               (∀ l o, σ !! l = Some o → consistent o) →
               ∀ l o, after script σ !! l = Some o → consistent o) as Hgen.
  { induction script as [|s script IH]; intros σ Hcov Hσ; [done|].
    destruct Hcov as [Hs Hrest]. cbn. apply IH; [done|].
    by apply exec_consistent. }
  intros Hcov. apply Hgen; [done|]. intros l o. by rewrite lookup_empty.
Qed.

End SessionLaws.

(** ** The printed form of a response *)

(** Characters and bytes: [len] and slices count the former. *)
Example len_examples :
  len "abc" = 3%nat ∧ len "été" = 3%nat ∧ String.length "été" = 5%nat
  ∧ slice_to 2 "été" = "ét" ∧ slice_to 0 "été" = "" ∧ slice_to 7 "été" = "été".
Proof. repeat split; reflexivity. Qed.

Lemma len_app (a b : string) : len (a +:+ b) = (len a + len b)%nat.
Proof.
  induction a as [|c a IH]; [done|].
  change (len (String c (a +:+ b)) = (len (String c a) + len b)%nat).
  cbn. rewrite IH. by destruct (continuation c).
Qed.

Lemma app_assoc_str (a b c : string) : (a +:+ b) +:+ c = a +:+ (b +:+ c).
Proof.
  induction a as [|x a IH]; [done|].
  change (String x ((a +:+ b) +:+ c) = String x (a +:+ (b +:+ c))).
  by rewrite IH.
Qed.

(** A slice holds as many characters as are asked for, or the whole
    string. *)
Lemma len_slice_to (n : nat) (s : string) :
  len (slice_to n s) = (n `min` len s)%nat.
Proof.
  revert n. induction s as [|c s IH]; intros n; [by destruct n|].
  cbn. destruct (continuation c) eqn:E.
  - cbn. by rewrite E, IH.
  - destruct n as [|n]; [done|]. cbn. by rewrite E, IH.
Qed.

Lemma slice_to_all (n : nat) (s : string) :
  (len s ≤ n)%nat → slice_to n s = s.
Proof.
  revert n. induction s as [|c s IH]; intros n; [done|].
  cbn. destruct (continuation c) eqn:E.
  - intros H. by rewrite IH.
  - destruct n as [|n]; [lia|]. intros H. rewrite IH; [done|lia].
Qed.

Lemma slice_to_prefix (n : nat) (s : string) :
  ∃ rest, s = slice_to n s +:+ rest.
Proof.
  revert n. induction s as [|c s IH]; intros n; [by exists ""|].
  cbn. destruct (continuation c).
  - destruct (IH n) as [rest Hrest]. exists rest.
    change (String c s = String c (slice_to n s +:+ rest)).
    by rewrite <- Hrest.
  - destruct n as [|n]; [by exists (String c s)|].
    destruct (IH n) as [rest Hrest]. exists rest.
    change (String c s = String c (slice_to n s +:+ rest)).
    by rewrite <- Hrest.
Qed.

Section ReprLaws.

Import Http Repr.

Lemma concat_text_len self : (len (concat_text self) ≤ 53)%nat.
Proof.
  unfold concat_text. destruct (text self) as [t|]; [|cbn; lia].
  change (default "" (Some t)) with t.
  destruct (truthy (Some t) && bool_decide (50 < len t)%nat) eqn:E.
  - rewrite len_app, len_slice_to. change (len "...") with 3%nat. lia.
  - apply andb_false_iff in E as [Ht|Hlen%bool_decide_eq_false].
    + destruct t; [cbn; lia|done].
    + cbn. lia.
Qed.

Lemma concat_text_short self t :
  text self = Some t → (len t ≤ 50)%nat → concat_text self = t.
Proof.
  intros Ht Hlen. unfold concat_text. rewrite Ht. cbn.
  rewrite bool_decide_false by lia. by rewrite andb_false_r.
Qed.

(** X12. The printed form of a response does not grow with the body: the
    text is shown whole when it has at most fifty characters, cut to its
    first fifty characters followed by an ellipsis when it is longer, and as
    [None] when there is none, so that the whole string has at most 99
    characters besides the status code and the reason. Characters are code
    points, as [len] and slices count them. *)
Theorem str_shows_bounded_text self :
  (len (HttpResponse__str__ self)
   ≤ 99 + len (pretty (status_code self)) + len (reason self))%nat
  ∧ (∀ t, text self = Some t → (len t ≤ 50)%nat →
       HttpResponse__str__ self
       = "HttpResponse(status_code=" +:+ pretty (status_code self)
         +:+ ", reason='" +:+ reason self +:+ "', text='" +:+ t +:+ "')")
  ∧ (∀ t, text self = Some t → (50 < len t)%nat →
       ∃ shown rest,
         t = shown +:+ rest ∧ len shown = 50
         ∧ HttpResponse__str__ self
           = "HttpResponse(status_code=" +:+ pretty (status_code self)
             +:+ ", reason='" +:+ reason self
             +:+ "', text='" +:+ shown +:+ "...')")
  ∧ (text self = None →
       HttpResponse__str__ self
       = "HttpResponse(status_code=" +:+ pretty (status_code self)
         +:+ ", reason='" +:+ reason self +:+ "', text='None')").
Proof.
  split; [|split; [|split]].
  - unfold HttpResponse__str__. rewrite !len_app.
    pose proof (concat_text_len self).
    change (len "HttpResponse(status_code=") with 25%nat.
    change (len ", reason='") with 10%nat.
    change (len "', text='") with 9%nat.
    change (len "')") with 2%nat. lia.
  - intros t Ht Hlen. unfold HttpResponse__str__.
    by rewrite (concat_text_short self t).
  - intros t Ht Hlen. destruct (slice_to_prefix 50 t) as [rest Hrest].
    exists (slice_to 50 t), rest.
    split; [done|]. split; [rewrite len_slice_to; lia|].
    unfold HttpResponse__str__, concat_text. rewrite Ht.
    change (default "" (Some t)) with t.
    rewrite bool_decide_true by lia.
    destruct t as [|c t]; [cbn in Hlen; lia|]. cbn [truthy andb].
    by rewrite app_assoc_str.
  - intros Ht. unfold HttpResponse__str__, concat_text. by rewrite Ht.
Qed.

End ReprLaws.

Lemma str_shows_bounded_text_witness :
  let self := Http.HttpResponse__init__ 404 "Not Found"
                (Some "{'détail': 'supprimé'}") None in
  Repr.HttpResponse__str__ self
  = "HttpResponse(status_code=404, reason='Not Found', text='{'détail': 'supprimé'}')".
Proof.
  intros self.
  destruct (str_shows_bounded_text self) as (_ & Hshort & _).
  rewrite (Hshort "{'détail': 'supprimé'}"); [reflexivity|reflexivity|].
  vm_compute. lia.
Defined.

(** ** Requests *)

Section RequestLaws.

Import Http Api Requests.

Variable get_user_agent : string → string.
Variable append_path : string → string → outcome string.
Variable build_qualified_uri :
  string → gmap string string → gmap string string → outcome string.
Variable HttpRetry : Type.
Variable request :
  HttpClient → string → HttpMethod → loc → option val → option Z →
  option HttpRetry → M dicts HttpResponse.
Variable self : ApiRequestor.

Implicit Types (σ : gmap loc (gmap string string)) (d : gmap string string).

Lemma request_raw_run base_uri path method api_version api_key path_params
    query_params json l d timeout retry uri σ :
  build_uri append_path build_qualified_uri self base_uri path path_params
    query_params = Ok uri →
  σ !! l = Some d →
  request_raw get_user_agent append_path build_qualified_uri HttpRetry request
    self base_uri path method api_version api_key path_params query_params
    json (Some l) timeout retry σ
  = request (_http_client self) uri method (fresh (dom σ)) json timeout retry
      (<[fresh (dom σ) := sent get_user_agent self d api_version api_key]> σ).
Proof.
  intros Huri Hl. unfold request_raw.
  erewrite bind_ok by (unfold lift; by rewrite Huri).
  by erewrite bind_ok by by apply build_request_headers_run.
Qed.

(** X13. What a verb of the requestor hands to the transport: the URI of
    [build_uri], its own method, the body for [post], [put] and [patch] and
    none for [get] and [delete], and a new dictionary with the headers
    built from those of the caller, whose own dictionary is untouched when
    the transport starts. *)
Theorem verbs_reach_transport base_uri path api_version api_key path_params
    query_params json l d timeout retry uri σ :
  build_uri append_path build_qualified_uri self base_uri path path_params
    query_params = Ok uri →
  σ !! l = Some d →
  ∃ l' σ1,
    l' ≠ l ∧ σ1 !! l = Some d
    ∧ σ1 !! l' = Some (sent get_user_agent self d api_version api_key)
    ∧ Requests.get get_user_agent append_path build_qualified_uri HttpRetry
        request self base_uri path api_version api_key path_params
        query_params (Some l) timeout retry σ
      = request (_http_client self) uri GET l' None timeout retry σ1
    ∧ post get_user_agent append_path build_qualified_uri HttpRetry
        request self base_uri path api_version api_key path_params
        query_params json (Some l) timeout retry σ
      = request (_http_client self) uri POST l' json timeout retry σ1
    ∧ put get_user_agent append_path build_qualified_uri HttpRetry
        request self base_uri path api_version api_key path_params
        query_params json (Some l) timeout retry σ
      = request (_http_client self) uri PUT l' json timeout retry σ1
    ∧ patch get_user_agent append_path build_qualified_uri HttpRetry
        request self base_uri path api_version api_key path_params
        query_params json (Some l) timeout retry σ
      = request (_http_client self) uri PATCH l' json timeout retry σ1
    ∧ Requests.delete get_user_agent append_path build_qualified_uri HttpRetry
        request self base_uri path api_version api_key path_params
        query_params (Some l) timeout retry σ
      = request (_http_client self) uri DELETE l' None timeout retry σ1.
Proof.
  intros Huri Hl.
  assert (fresh (dom σ) ≠ l) as Hfresh.
  { intros Heq. rewrite <- Heq, fresh_not_allocated in Hl. done. }
  eexists _, _. split; [exact Hfresh|].
  split; [by rewrite lookup_insert_ne|].
  split; [apply lookup_insert_eq|].
  unfold Requests.get, post, put, patch, Requests.delete.
  repeat split; by apply request_raw_run.
Qed.

(** X14. A URI that cannot be built stops the request before anything
    else happens: every verb raises the error of [build_uri], no header
    dictionary is made and the transport is not entered. *)
Theorem uri_failure_stops_request base_uri path method api_version api_key
    path_params query_params json headers timeout retry e σ :
  build_uri append_path build_qualified_uri self base_uri path path_params
    query_params = Raise e →
  request_raw get_user_agent append_path build_qualified_uri HttpRetry request
    self base_uri path method api_version api_key path_params query_params
    json headers timeout retry σ
  = (Raise e, σ)
  ∧ Requests.get get_user_agent append_path build_qualified_uri HttpRetry
      request self base_uri path api_version api_key path_params
      query_params headers timeout retry σ
    = (Raise e, σ)
  ∧ post get_user_agent append_path build_qualified_uri HttpRetry
      request self base_uri path api_version api_key path_params
      query_params json headers timeout retry σ
    = (Raise e, σ)
  ∧ put get_user_agent append_path build_qualified_uri HttpRetry
      request self base_uri path api_version api_key path_params
      query_params json headers timeout retry σ
    = (Raise e, σ)
  ∧ patch get_user_agent append_path build_qualified_uri HttpRetry
      request self base_uri path api_version api_key path_params
      query_params json headers timeout retry σ
    = (Raise e, σ)
  ∧ delete get_user_agent append_path build_qualified_uri HttpRetry
      request self base_uri path api_version api_key path_params
      query_params headers timeout retry σ
    = (Raise e, σ).
Proof.
  intros Huri.
  assert (∀ m j,
    request_raw get_user_agent append_path build_qualified_uri HttpRetry
      request self base_uri path m api_version api_key path_params
      query_params j headers timeout retry σ = (Raise e, σ)) as Hraw.
  { intros m j. unfold request_raw.
    by erewrite bind_raise by (unfold lift; by rewrite Huri). }
  repeat split; apply Hraw.
Qed.

End RequestLaws.

Section HeaderLaws.

Import Api.

Variable get_user_agent : string → string.
Variable self : ApiRequestor.

Implicit Types (σ : gmap loc (gmap string string)) (d : gmap string string).

(** X15. Building headers from built headers changes nothing: a second
    call with the same version and key on the result of a first one returns
    a dictionary with the same entries. *)
Theorem build_request_headers_twice l d σ api_version api_key :
  σ !! l = Some d →
  ∃ l1 l2 σ1 σ2 out,
    build_request_headers get_user_agent self (Some l) api_version api_key σ
    = (Ok l1, σ1)
    ∧ build_request_headers get_user_agent self (Some l1) api_version
        api_key σ1
      = (Ok l2, σ2)
    ∧ l1 ≠ l2
    ∧ σ2 !! l1 = Some out ∧ σ2 !! l2 = Some out.
Proof.
  intros Hl. eexists _, _, _, _, _.
  split; [by apply build_request_headers_run|].
  split; [apply build_request_headers_run, lookup_insert_eq|].
  set (σ1 := <[fresh (dom σ) := _]> σ).
  assert (fresh (dom σ) ≠ fresh (dom σ1)) as Hne.
  { intros Heq. pose proof (fresh_not_allocated σ1) as Hfree.
    rewrite <- Heq in Hfree. subst σ1. by rewrite lookup_insert_eq in Hfree. }
  split; [done|].
  split.
  - rewrite lookup_insert_ne by done. subst σ1. apply lookup_insert_eq.
  - rewrite lookup_insert_eq. f_equal. apply map_eq. intros k.
    destruct (decide (k = "User-Agent")) as [->|Hua];
      [by rewrite !sent_User_Agent|].
    destruct (decide (k = "Accept")) as [->|Hacc].
    { by rewrite !sent_Accept. }
    destruct (decide (k = "Caplena-API-Key")) as [->|Hkey].
    { destruct api_key as [key|];
        [by rewrite !sent_api_key|by rewrite !sent_api_key_None]. }
    destruct (decide (k = "Caplena-API-Version")) as [->|Hver].
    { rewrite !sent_version. by destruct api_version. }
    rewrite sent_other; [done| |done].
    unfold reserved_headers. set_solver.
Qed.

(** X16. Without headers of the caller the result has the headers of the
    requestor and no other: [Accept] and [User-Agent] always, the API key
    exactly when one is passed, the API version exactly when it is not the
    default one. *)
Theorem default_request_headers σ api_version api_key :
  ∃ l' out σ',
    build_request_headers get_user_agent self None api_version api_key σ
    = (Ok l', σ')
    ∧ σ' !! l' = Some out
    ∧ ∀ k v, out !! k = Some v ↔
        (k = "Accept" ∧ v = "application/json")
        ∨ (k = "User-Agent"
           ∧ v = get_user_agent (identifier (_http_client self)))
        ∨ (k = "Caplena-API-Key" ∧ api_key = Some v)
        ∨ (k = "Caplena-API-Version" ∧ api_version ≠ DEFAULT
           ∧ version api_version = Ok v).
Proof.
  eexists _, _, _.
  split; [apply build_request_headers_run_None|].
  split; [apply lookup_insert_eq|].
  intros k v.
  destruct (decide (k = "User-Agent")) as [->|Hua].
  { rewrite sent_User_Agent. split.
    - intros [= <-]. right. left. done.
    - intros [[? _]|[[_ ->]|[[? _]|[? _]]]]; done. }
  destruct (decide (k = "Accept")) as [->|Hacc].
  { rewrite sent_Accept, lookup_empty. cbn. split.
    - intros [= <-]. left. done.
    - intros [[_ ->]|[[? _]|[[? _]|[? _]]]]; done. }
  destruct (decide (k = "Caplena-API-Key")) as [->|Hkey].
  { destruct api_key as [key|].
    - rewrite sent_api_key. split.
      + intros [= <-]. right. right. left. done.
      + intros [[? _]|[[? _]|[[_ [= ->]]|[? _]]]]; done.
    - rewrite sent_api_key_None, lookup_empty. split; [done|].
      intros [[? _]|[[? _]|[[_ ?]|[? _]]]]; done. }
  destruct (decide (k = "Caplena-API-Version")) as [->|Hver].
  { rewrite sent_version. destruct api_version.
    - rewrite lookup_empty. split; [done|].
      intros [[? _]|[[? _]|[[? _]|(_ & ? & _)]]]; done.
    - split.
      + intros [= <-]. right. right. right. done.
      + intros [[? _]|[[? _]|[[? _]|(_ & _ & Hv)]]]; try done.
        rewrite version_VER_2021_12_01 in Hv. congruence. }
  rewrite sent_other, lookup_empty; [|unfold reserved_headers; set_solver|done].
  split; [done|].
  intros [[? _]|[[? _]|[[? _]|[? _]]]]; done.
Qed.

End HeaderLaws.

(** ** Field reads and identified resources *)

Section ReadLaws.

Import Endpoint Resources.

Variable object__getattribute__ : loc → string → M heap val.

Implicit Types (σ : gmap loc BaseObject) (o : BaseObject) (self : loc).

Lemma getattr_field_run self o name σ :
  σ !! self = Some o → name ∈ __fields__ (cls o) →
  __getattr__ object__getattribute__ self name σ
  = (match _attrs o !! name with
     | Some v => Ok v
     | None => Raise (KeyError name)
     end, σ).
Proof.
  intros Hself Hname. unfold __getattr__.
  erewrite bind_ok by by apply deref_run.
  rewrite decide_True by done. by apply attrs_getitem_run.
Qed.

(** X17. On an object constructed from an input with an entry for every
    declared field, reading a declared field gives the entry of the input
    under that name; an entry of the input under another name is no field:
    reading it is left to the lookup of the interpreter. *)
Theorem read_after_construction cls attrs σ :
  private_free cls →
  __fields__ cls ⊆ dom attrs →
  ∃ new σ',
    BaseObject__init__ cls attrs σ = (Ok new, σ')
    ∧ (∀ name, name ∈ __fields__ cls →
         ∃ v, attrs !! name = Some v
              ∧ __getattr__ object__getattribute__ new name σ' = (Ok v, σ'))
    ∧ (∀ name, name ∉ __fields__ cls →
         __getattr__ object__getattribute__ new name σ'
         = object__getattribute__ new name σ').
Proof.
  intros _ Hall. eexists _, _. split; [apply BaseObject__init___run|].
  split.
  - intros name Hname.
    destruct (attrs !! name) as [v|] eqn:Hv; last first.
    { apply Hall, elem_of_dom in Hname as [v Hv']. congruence. }
    exists v. split; [done|].
    erewrite getattr_field_run; [|apply lookup_insert_eq|done].
    cbn. by rewrite partial_dict_lookup, decide_True, Hv by done.
  - intros name Hname. unfold __getattr__.
    erewrite bind_ok by apply deref_run, lookup_insert_eq.
    cbn. by rewrite decide_False.
Qed.

(** X18. Reading a mutable declared field after a write gives the value
    written, and the write changes what no other declared field reads as. *)
Theorem read_after_write self o name value σ :
  σ !! self = Some o →
  name ∈ __fields__ (cls o) → name ∈ __mutable__ (cls o) →
  ∃ σ',
    __setattr__ self name value σ = (Ok tt, σ')
    ∧ __getattr__ object__getattribute__ self name σ' = (Ok value, σ')
    ∧ ∀ other, other ∈ __fields__ (cls o) → other ≠ name →
        (__getattr__ object__getattribute__ self other σ').1
        = (__getattr__ object__getattribute__ self other σ).1.
Proof.
  intros Hself Hf Hm. eexists. split; [by apply setattr_mutable_run|].
  split.
  - erewrite getattr_field_run; [|apply lookup_insert_eq|done].
    cbn. by rewrite lookup_insert_eq.
  - intros other Hother Hne.
    erewrite getattr_field_run; [|apply lookup_insert_eq|done].
    erewrite (getattr_field_run self o other σ) by done.
    cbn. by rewrite lookup_insert_ne.
Qed.

Lemma BaseResource__init___run cls id attrs σ :
  "_id" ∉ __fields__ cls →
  BaseResource__init__ cls id attrs σ
  = (Ok (fresh (dom σ)),
     <[fresh (dom σ) :=
         mkBaseObject cls (partial_dict attrs (__fields__ cls)) ∅ None
           {[ "_id" := VStr id ]}]> σ).
Proof.
  intros Hid. unfold BaseResource__init__.
  erewrite bind_ok by apply BaseObject__init___run.
  erewrite bind_ok; last first.
  { unfold __setattr__. erewrite bind_ok by apply deref_run, lookup_insert_eq.
    cbn. rewrite decide_False by (intros [? _]; done).
    rewrite decide_False by done.
    apply update_run, lookup_insert_eq. }
  cbn. by rewrite insert_insert_eq.
Qed.

Lemma getattr__id_run self o v σ :
  σ !! self = Some o → __dict__ o !! "_id" = Some v →
  getattr__id object__getattribute__ self σ = (Ok v, σ).
Proof.
  intros Hself Hid. unfold getattr__id.
  erewrite bind_ok by by apply deref_run. by rewrite Hid.
Qed.

(** X19. An identified resource keeps its identifier beside its fields:
    [id] reads it, it is no change to persist, and the export of a resource
    whose schema does not declare [id], and whose declared fields all have
    plain values in the input, is these fields and the identifier under
    [id]. *)
Theorem identified_resource_export cls id attrs σ :
  private_free cls →
  "_id" ∉ __fields__ cls →
  "id" ∉ __fields__ cls →
  ∃ self o σ',
    BaseResource__init__ cls id attrs σ = (Ok self, σ')
    ∧ σ' !! self = Some o
    ∧ _unpersisted_attributes o = ∅
    ∧ Resources.id object__getattribute__ self σ' = (Ok (VStr id), σ')
    ∧ ((∀ f, f ∈ __fields__ cls → ∃ v, attrs !! f = Some v ∧ plain v) →
       ∀ depth, ∃ r,
         BaseResource_dict object__getattribute__ (S depth) self σ'
         = (Ok r, σ')
         ∧ r !! "id" = Some (VStr id)
         ∧ ∀ k, k ≠ "id" →
             r !! k = if decide (k ∈ __fields__ cls) then attrs !! k
                      else None).
Proof.
  intros _ H_id Hid. eexists _, _, _.
  split; [by apply BaseResource__init___run|].
  split; [apply lookup_insert_eq|].
  split; [done|].
  split; [eapply getattr__id_run; [apply lookup_insert_eq|done]|].
  intros Hplain depth. eexists. split; [|split].
  - unfold BaseResource_dict. erewrite bind_ok; last first.
    { apply dict_plain; [apply lookup_insert_eq|..]; cbn.
      - intros f Hf. rewrite partial_dict_lookup, decide_True by done. auto.
      - intros k [v Hk]%elem_of_dom. rewrite partial_dict_lookup in Hk.
        by case_decide. }
    erewrite bind_ok; [reflexivity|].
    eapply getattr__id_run; [apply lookup_insert_eq|done].
  - apply lookup_insert_eq.
  - intros k Hk. rewrite lookup_insert_ne by done. cbn.
    apply partial_dict_lookup.
Qed.

End ReadLaws.

(** ** Pages *)

Lemma fresh_not_allocated_obj (σ : gmap loc Endpoint.BaseObject) :
  σ !! fresh (dom σ) = None.
Proof. apply not_elem_of_dom, is_fresh. Qed.

Section PageLaws.

Import Http Endpoint Resources.

Variable json_loads : string → outcome val.
Variable self : BaseController.

Implicit Types (σ : gmap loc BaseObject) (o : BaseObject).

Lemma retrieve_cached_body response body σ :
  _json response = Some body → body ≠ VNone →
  with_response response (_retrieve_json_or_raise json_loads self) σ
  = (Ok body, σ).
Proof.
  intros Hcached Hbody. unfold with_response, _retrieve_json_or_raise.
  erewrite bind_ok; last first.
  { unfold on_fst. cbn. erewrite json_cached by done. reflexivity. }
  by destruct body.
Qed.

Lemma first_missing_complete (row : gmap string val) (fields : gset string) :
  (∀ f, f ∈ fields → is_Some (row !! f)) →
  first_missing (partial_dict row fields) (elements fields) = None.
Proof.
  intros Hall. apply first_missing_None. intros f Hf%elem_of_elements.
  rewrite partial_dict_lookup, decide_True by done. auto.
Qed.

Lemma build_rows cls controller rows σ :
  "controller" ∉ __fields__ cls →
  Forall (λ row, ∀ f, f ∈ __fields__ cls → is_Some (row !! f)) rows →
  ∃ results σ',
    map_each (λ res, build_obj (mkResource cls (construct cls)) res
                       (Some controller)) (VDict <$> rows) σ
    = (Ok results, σ')
    ∧ materialized cls controller σ σ' results rows.
Proof.
  intros Hc Hrows. revert σ.
  induction Hrows as [|row rows Hrow _ IH]; intros σ.
  - exists [], σ. split; [reflexivity|].
    split; [constructor|]. split; [constructor|]. split; [constructor|done].
  - set (l := fresh (dom σ)).
    set (o := mkBaseObject cls (partial_dict row (__fields__ cls)) ∅
                (Some controller) ∅).
    destruct (IH (<[l := o]> σ)) as (results & σ' & Hrun & Hnd & Hnew & Hall
                                     & Hkeep).
    exists (l :: results), σ'. split.
    + cbn. erewrite bind_ok; last first.
      { rewrite build_obj_run by done.
        rewrite first_missing_complete by done. reflexivity. }
      fold l o. by erewrite bind_ok by exact Hrun.
    + assert (σ !! l = None) as Hl by apply fresh_not_allocated_obj.
      split; [|split; [|split]].
      * constructor; [|done]. intros Hin.
        rewrite Forall_forall in Hnew. specialize (Hnew _ Hin).
        by rewrite lookup_insert_eq in Hnew.
      * constructor; [done|]. eapply Forall_impl; [exact Hnew|].
        intros l' Hl'. cbn in Hl'.
        destruct (decide (l' = l)) as [->|Hne];
          [by rewrite lookup_insert_eq in Hl'|].
        by rewrite lookup_insert_ne in Hl'.
      * constructor; [|done]. exists o.
        split; [rewrite Hkeep; rewrite lookup_insert_eq; eauto|].
        split; [done|]. split; [done|]. split; [done|].
        intros k. apply partial_dict_lookup.
      * intros l' Hl'. rewrite Hkeep.
        -- apply lookup_insert_ne. intros <-. rewrite Hl in Hl'.
           by destruct Hl'.
        -- destruct (decide (l' = l)) as [->|Hne].
           ++ rewrite lookup_insert_eq. eauto.
           ++ by rewrite lookup_insert_ne.
Qed.

(** X21. For a class that declares no field named [controller]: a page
    whose parsed body is at hand ([_json] holds a dictionary) with a list of
    rows under [results], each with an entry for every declared field, and
    with [next_url] and [count], gives one new object per row, in the order
    of the rows, each with the declared entries of its row, an empty dirty
    set and this dispatcher as controller; the flag says whether [next_url]
    is something else than [None], the count is handed on, and the objects
    that were in the store are untouched. *)
Theorem page_materializes cls fetcher page response body rows next_url count
    σ :
  private_free cls →
  "controller" ∉ __fields__ cls →
  fetcher page = Ok response →
  _json response = Some (VDict body) →
  body !! "results" = Some (VList (VDict <$> rows)) →
  Forall (λ row, ∀ f, f ∈ __fields__ cls → is_Some (row !! f)) rows →
  body !! "next_url" = Some next_url →
  body !! "count" = Some count →
  ∃ results σ',
    results_fetcher json_loads self fetcher (mkResource cls (construct cls))
      page σ
    = (Ok (results, negb (is_None next_url), count), σ')
    ∧ length results = length rows
    ∧ materialized cls (ref self) σ σ' results rows.
Proof.
  intros _ Hc Hfetch Hcached Hresults Hrows Hnext Hcount.
  destruct (build_rows cls (ref self) rows σ Hc Hrows)
    as (results & σ' & Hrun & Hmat).
  exists results, σ'. split; [|split; [|done]].
  - unfold results_fetcher.
    erewrite bind_ok by (unfold lift; by rewrite Hfetch).
    erewrite bind_ok by by apply retrieve_cached_body.
    erewrite bind_ok by (unfold lift; cbn; by rewrite Hresults).
    erewrite bind_ok by reflexivity.
    erewrite bind_ok by exact Hrun.
    erewrite bind_ok by (unfold lift; cbn; by rewrite Hnext).
    erewrite bind_ok by (unfold lift; cbn; by rewrite Hcount).
    reflexivity.
  - destruct Hmat as (_ & _ & Hall & _).
    by apply Forall2_length in Hall.
Qed.

(** X22. A page whose response comes from the constructor of
    [HttpResponse] cannot be fetched: the closure raises [AttributeError],
    before any object is made, whatever the body. *)
Theorem page_of_constructed_response resource fetcher page status_code reason
    text headers σ :
  fetcher page = Ok (HttpResponse__init__ status_code reason text headers) →
  results_fetcher json_loads self fetcher resource page σ
  = (Raise (AttributeError "'HttpResponse' object has no attribute '_json'"),
     σ).
Proof.
  intros Hfetch. unfold results_fetcher.
  erewrite bind_ok by (unfold lift; by rewrite Hfetch).
  by erewrite bind_raise by reflexivity.
Qed.

(** X23. A parsed body that is not a dictionary with [results] stops the
    page before any object is made: [KeyError] when the dictionary has no
    such key, [TypeError] when the body is a list or when what is under
    [results] is [None]. *)
Theorem page_without_results resource fetcher page response body σ :
  fetcher page = Ok response →
  _json response = Some body →
  ((∃ entries, body = VDict entries ∧ entries !! "results" = None) →
   results_fetcher json_loads self fetcher resource page σ
   = (Raise (KeyError "results"), σ))
  ∧ ((∃ items, body = VList items) →
     ∃ msg, results_fetcher json_loads self fetcher resource page σ
            = (Raise (TypeError msg), σ))
  ∧ ((∃ entries, body = VDict entries
                 ∧ entries !! "results" = Some VNone) →
     ∃ msg, results_fetcher json_loads self fetcher resource page σ
            = (Raise (TypeError msg), σ)).
Proof.
  intros Hfetch Hcached. split; [|split].
  - intros (entries & -> & Hnone). unfold results_fetcher.
    erewrite bind_ok by (unfold lift; by rewrite Hfetch).
    erewrite bind_ok by by apply retrieve_cached_body.
    by erewrite bind_raise by (unfold lift; cbn; by rewrite Hnone).
  - intros (items & ->). eexists. unfold results_fetcher.
    erewrite bind_ok by (unfold lift; by rewrite Hfetch).
    erewrite bind_ok by by apply retrieve_cached_body.
    by erewrite bind_raise by reflexivity.
  - intros (entries & -> & Hnone). eexists. unfold results_fetcher.
    erewrite bind_ok by (unfold lift; by rewrite Hfetch).
    erewrite bind_ok by by apply retrieve_cached_body.
    erewrite bind_ok by (unfold lift; cbn; by rewrite Hnone).
    by erewrite bind_raise by reflexivity.
Qed.

End PageLaws.

(** ** The statements above on concrete inputs *)

(** Membership in a set that is given by its elements. *)
Ltac by_compute := cbn; apply (bool_decide_unpack _); vm_compute; exact I.

Lemma private_free_sample name fields mutable :
  bool_decide (("_controller" ∉ fields) ∧ ("_attrs" ∉ fields)
               ∧ ("_unpersisted_attributes" ∉ fields)) = true →
  Endpoint.private_free (Endpoint.mkSchema name fields mutable).
Proof. intros H. by apply bool_decide_eq_true in H. Qed.

Lemma controller_get_after_set_witness :
  let Project := Endpoint.mkSchema "Project" {[ "id"; "name" ]} {[ "name" ]} in
  let o := Endpoint.mkBaseObject Project {[ "id" := VStr "r1" ]} ∅ None ∅ in
  let σ : gmap loc Endpoint.BaseObject := {[ 1%positive := o ]} in
  let σ' := (Endpoint.set_controller 1%positive (Some 7%positive) σ).2 in
  Endpoint.controller 1%positive σ' = (Ok 7%positive, σ').
Proof.
  intros Project o σ.
  exact (controller_get_after_set 1%positive o 7%positive σ eq_refl).
Defined.

Lemma controller_detached_witness :
  let Project := Endpoint.mkSchema "Project" {[ "id"; "name" ]} {[ "name" ]} in
  let o := Endpoint.mkBaseObject Project {[ "id" := VStr "r1" ]} ∅
             (Some 7%positive) ∅ in
  let σ : gmap loc Endpoint.BaseObject := {[ 1%positive := o ]} in
  ∃ msg,
    Endpoint.controller 1%positive (Endpoint.set_controller 1%positive None σ).2
    = (Raise (ValueError msg), (Endpoint.set_controller 1%positive None σ).2).
Proof.
  intros Project o σ.
  apply (controller_detached Project ∅ 1%positive o σ); [|reflexivity].
  apply private_free_sample. vm_compute. reflexivity.
Defined.

Lemma set_controller_changes_controller_only_witness :
  let Project := Endpoint.mkSchema "Project" {[ "id"; "name" ]} {[ "name" ]} in
  let o := Endpoint.mkBaseObject Project {[ "id" := VStr "r1" ]} {[ "name" ]}
             None ∅ in
  let σ : gmap loc Endpoint.BaseObject := {[ 1%positive := o; 2%positive := o ]} in
  let σ' := (Endpoint.set_controller 1%positive (Some 7%positive) σ).2 in
  (∃ o', σ' !! 1%positive = Some o'
         ∧ Endpoint._controller o' = Some 7%positive
         ∧ Endpoint._attrs o' = Endpoint._attrs o
         ∧ Endpoint._unpersisted_attributes o'
           = Endpoint._unpersisted_attributes o
         ∧ Endpoint.cls o' = Endpoint.cls o)
  ∧ (∀ l, l ≠ 1%positive → σ' !! l = σ !! l).
Proof.
  intros Project o σ.
  exact (set_controller_changes_controller_only 1%positive o
           (Some 7%positive) σ eq_refl).
Defined.

Lemma refresh_from_replaces_witness :
  let Project := Endpoint.mkSchema "Project" {[ "id"; "name" ]} {[ "name" ]} in
  let o := Endpoint.mkBaseObject Project
             {[ "id" := VStr "r1"; "name" := VStr "Foo" ]} {[ "name" ]}
             (Some 7%positive) ∅ in
  let σ : gmap loc Endpoint.BaseObject := {[ 1%positive := o ]} in
  let input : gmap string val :=
    {[ "id" := VStr "r2"; "name" := VStr "Bar"; "zip" := VInt 1 ]} in
  ∃ o' σ',
    Endpoint.refresh_from 1%positive input σ = (Ok tt, σ')
    ∧ σ' !! 1%positive = Some o'
    ∧ Endpoint._unpersisted_attributes o' = ∅
    ∧ Endpoint._controller o' = Some 7%positive
    ∧ Endpoint._attrs o' !! "name" = Some (VStr "Bar").
Proof.
  intros Project o σ input.
  destruct (refresh_from_replaces 1%positive o input σ eq_refl)
    as (o' & σ' & Hrun & Hself & Hdirty & Hc & _ & Hattrs & _);
    [by_compute|].
  exists o', σ'. do 4 (split; [done|]).
  by rewrite Hattrs by by_compute.
Defined.

Lemma dict_entries_witness :
  let Column := Endpoint.mkSchema "Column" {[ "name" ]} ∅ in
  let Project := Endpoint.mkSchema "Project" {[ "id"; "column" ]} ∅ in
  let column := Endpoint.mkBaseObject Column {[ "name" := VStr "c" ]} ∅ None ∅ in
  let project := Endpoint.mkBaseObject Project
                   {[ "id" := VStr "r1"; "column" := VObj 2%positive ]}
                   ∅ None ∅ in
  let σ : gmap loc Endpoint.BaseObject :=
    {[ 1%positive := project; 2%positive := column ]} in
  let r : gmap string val :=
    {[ "id" := VStr "r1"; "column" := VDict {[ "name" := VStr "c" ]} ]} in
  Endpoint.dict 2 1%positive σ = (Ok r, σ)
  ∧ dom r = Endpoint.__fields__ Project.
Proof.
  intros Column Project column project σ r.
  assert (Endpoint.dict 2 1%positive σ = (Ok r, σ)) as Hrun.
  { subst Column Project column project σ r. vm_compute. reflexivity. }
  split; [exact Hrun|].
  exact (proj1 (dict_entries 1 1%positive project σ r σ eq_refl Hrun)).
Defined.

Lemma dict_of_cycle_raises_witness :
  let Node := Endpoint.mkSchema "Node" {[ "next" ]} ∅ in
  let node := Endpoint.mkBaseObject Node {[ "next" := VObj 1%positive ]}
                ∅ None ∅ in
  let σ : gmap loc Endpoint.BaseObject := {[ 1%positive := node ]} in
  ∃ e, Endpoint.dict 1000 1%positive σ = (Raise e, σ).
Proof.
  intros Node node σ.
  apply (dict_of_cycle_raises 1%positive node "next" σ eq_refl);
    [by_compute|reflexivity].
Defined.

Lemma writes_accumulate_witness :
  let Project := Endpoint.mkSchema "Project" {[ "id"; "name" ]} {[ "name" ]} in
  let o := Endpoint.mkBaseObject Project
             {[ "id" := VStr "r1"; "name" := VStr "Foo" ]} ∅ None ∅ in
  let σ : gmap loc Endpoint.BaseObject := {[ 1%positive := o ]} in
  let writes := [("name", VStr "A"); ("name", VStr "B")] in
  ∃ o',
    Session.write_all 1%positive writes σ = (Ok tt, <[1%positive := o']> σ)
    ∧ Endpoint._attrs o' !! "name" = Some (VStr "B")
    ∧ Endpoint._attrs o' !! "id" = Some (VStr "r1").
Proof.
  intros Project o σ writes.
  destruct (writes_accumulate 1%positive o writes σ eq_refl)
    as (o' & Hrun & _ & Hattrs & _).
  { repeat constructor; by_compute. }
  exists o'. split; [exact Hrun|]. by rewrite !Hattrs.
Defined.

Lemma export_after_write_witness :
  let Project := Endpoint.mkSchema "Project" {[ "id"; "name" ]} {[ "name" ]} in
  let o := Endpoint.mkBaseObject Project
             {[ "id" := VStr "r1"; "name" := VStr "Foo" ]} ∅ None ∅ in
  let σ : gmap loc Endpoint.BaseObject := {[ 1%positive := o ]} in
  ∃ σ',
    (Endpoint.__setattr__ 1%positive "name" (VStr "Bar") ;;
     Endpoint.dict 1 1%positive) σ
    = (Ok (<["name" := VStr "Bar"]>
             {[ "id" := VStr "r1"; "name" := VStr "Foo" ]}), σ').
Proof.
  intros Project o σ.
  apply (export_after_write 0 1%positive o "name" (VStr "Bar") σ eq_refl).
  - intros f Hf. cbn in Hf.
    apply elem_of_union in Hf as [->%elem_of_singleton| ->%elem_of_singleton];
      eexists; (split; [reflexivity|exact I]).
  - by_compute.
  - by_compute.
  - by_compute.
  - exact I.
Defined.

Lemma objects_stay_consistent_witness :
  let Project := Endpoint.mkSchema "Project" {[ "owner"; "name" ]} {[ "name" ]} in
  let script :=
    [ Session.Construct Project
        {[ "owner" := VStr "u1"; "name" := VStr "Foo"; "zip" := VInt 1 ]};
      Session.Write 1%positive "name" (VStr "Bar");
      Session.Write 1%positive "owner" (VStr "u2");
      Session.Write 1%positive "nmae" (VStr "typo");
      Session.Delete 1%positive "name";
      Session.Attach 1%positive (Some 7%positive);
      Session.Refresh 1%positive
        {[ "owner" := VStr "u1"; "name" := VStr "Baz" ]};
      Session.Write 1%positive "name" (VStr "Qux") ] in
  ∃ o, Session.after script ∅ !! 1%positive = Some o
    ∧ Endpoint._unpersisted_attributes o
      ⊆ Endpoint.__fields__ (Endpoint.cls o) ∩ Endpoint.__mutable__ (Endpoint.cls o)
    ∧ dom (Endpoint._attrs o) ⊆ Endpoint.__fields__ (Endpoint.cls o).
Proof.
  intros Project script.
  assert (Session.all_covered script ∅) as Hcov.
  { subst Project script. apply (bool_decide_unpack _). vm_compute. exact I. }
  assert (∃ o, Session.after script ∅ !! 1%positive = Some o) as [o Hafter].
  { subst Project script. eexists. vm_compute. reflexivity. }
  exists o. split; [exact Hafter|].
  exact (objects_stay_consistent script Hcov 1%positive o Hafter).
Defined.

Lemma write_undeclared_name_witness :
  let Project := Endpoint.mkSchema "Project" {[ "id"; "name" ]} {[ "name" ]} in
  let o := Endpoint.mkBaseObject Project
             {[ "id" := VStr "r1"; "name" := VStr "Foo" ]} ∅ None ∅ in
  let σ : gmap loc Endpoint.BaseObject := {[ 1%positive := o ]} in
  ∃ o',
    Endpoint.__setattr__ 1%positive "nmae" (VStr "Bar") σ
    = (Ok tt, <[1%positive := o']> σ)
    ∧ Endpoint._attrs o' = Endpoint._attrs o
    ∧ Endpoint._unpersisted_attributes o' = ∅.
Proof.
  intros Project o σ.
  destruct (write_undeclared_name 1%positive o "nmae" (VStr "Bar") σ eq_refl)
    as (o' & Hrun & Hattrs & Hdirty & _);
    [by_compute|apply (bool_decide_unpack _); vm_compute; exact I|].
  by exists o'.
Defined.

Lemma verbs_reach_transport_witness :
  let ua := λ identifier : string, "caplena-python/" +:+ identifier in
  let append_path := λ base path : string, Ok (base +:+ path) in
  let build_qualified_uri :=
    λ (uri : string) (_ _ : gmap string string), Ok uri in
  let request :=
    λ (_ : Api.HttpClient) (_ : string) (m : Requests.HttpMethod) (_ : loc)
      (_ : option val) (_ : option Z) (_ : option unit),
      ret (S := gmap loc (gmap string string))
        (Http.HttpResponse__init__
           (match m with Requests.POST => 201 | _ => 200 end) "OK" None None) in
  let self := Api.Build_ApiRequestor (Api.Build_HttpClient "requests") in
  let d : gmap string string := {[ "X-Trace" := "42" ]} in
  let σ : gmap loc (gmap string string) := {[ 1%positive := d ]} in
  ∃ σ1,
    σ1 !! 1%positive = Some d
    ∧ Requests.post ua append_path build_qualified_uri unit request self
        (Requests.UriEnum Requests.PRODUCTION) "/projects" Api.DEFAULT
        (Some "key") None None (Some (VDict ∅)) (Some 1%positive) None None σ
      = (Ok (Http.HttpResponse__init__ 201 "OK" None None), σ1).
Proof.
  intros ua append_path build_qualified_uri request self d σ.
  destruct (verbs_reach_transport ua append_path build_qualified_uri unit
              request self (Requests.UriEnum Requests.PRODUCTION) "/projects"
              Api.DEFAULT (Some "key") None None (Some (VDict ∅)) 1%positive
              d None None "https://api.caplena.com/v2/projects" σ
              eq_refl eq_refl)
    as (l' & σ1 & _ & Hd & _ & _ & Hpost & _).
  exists σ1. split; [exact Hd|]. rewrite Hpost. reflexivity.
Defined.

Lemma uri_failure_stops_request_witness :
  let ua := λ identifier : string, "caplena-python/" +:+ identifier in
  let append_path :=
    λ _ _ : string, Raise (A := string) (ValueError "malformed path") in
  let build_qualified_uri :=
    λ (uri : string) (_ _ : gmap string string), Ok uri in
  let request :=
    λ (_ : Api.HttpClient) (_ : string) (_ : Requests.HttpMethod) (_ : loc)
      (_ : option val) (_ : option Z) (_ : option unit),
      ret (S := gmap loc (gmap string string))
        (Http.HttpResponse__init__ 200 "OK" None None) in
  let self := Api.Build_ApiRequestor (Api.Build_HttpClient "requests") in
  Requests.get ua append_path build_qualified_uri unit request self
    (Requests.UriStr "http://localhost:8000/v2") "projects" Api.DEFAULT None
    None None None None None ∅
  = (Raise (ValueError "malformed path"), ∅).
Proof.
  intros ua append_path build_qualified_uri request self.
  destruct (uri_failure_stops_request ua append_path build_qualified_uri unit
              request self (Requests.UriStr "http://localhost:8000/v2")
              "projects" Requests.GET Api.DEFAULT None None None None None
              None None (ValueError "malformed path") ∅ eq_refl)
    as (_ & Hget & _).
  exact Hget.
Defined.

Lemma build_request_headers_twice_witness :
  let ua := λ identifier : string, "caplena-python/" +:+ identifier in
  let self := Api.Build_ApiRequestor (Api.Build_HttpClient "requests") in
  let σ : gmap loc (gmap string string) :=
    {[ 1%positive := {[ "Accept" := "text/csv" ]} ]} in
  ∃ l1 l2 σ1 σ2 out,
    Api.build_request_headers ua self (Some 1%positive) Api.VER_2021_12_01
      (Some "key") σ
    = (Ok l1, σ1)
    ∧ Api.build_request_headers ua self (Some l1) Api.VER_2021_12_01
        (Some "key") σ1
      = (Ok l2, σ2)
    ∧ l1 ≠ l2
    ∧ σ2 !! l1 = Some out ∧ σ2 !! l2 = Some out.
Proof.
  intros ua self σ.
  exact (build_request_headers_twice ua self 1%positive
           {[ "Accept" := "text/csv" ]} σ Api.VER_2021_12_01 (Some "key")
           eq_refl).
Defined.

Lemma read_after_construction_witness :
  let lookup := λ (_ : loc) (name : string),
    raise (S := gmap loc Endpoint.BaseObject) (A := val) (AttributeError name) in
  let Project := Endpoint.mkSchema "Project" {[ "id"; "name" ]} {[ "name" ]} in
  let input : gmap string val :=
    {[ "id" := VStr "r1"; "name" := VStr "Foo"; "zip" := VInt 1 ]} in
  ∃ new σ',
    Endpoint.BaseObject__init__ Project input ∅ = (Ok new, σ')
    ∧ Resources.__getattr__ lookup new "id" σ' = (Ok (VStr "r1"), σ')
    ∧ Resources.__getattr__ lookup new "zip" σ'
      = (Raise (AttributeError "zip"), σ').
Proof.
  intros lookup Project input.
  destruct (read_after_construction lookup Project input ∅)
    as (new & σ' & Hinit & Hfield & Hother); [by_compute|by_compute|].
  exists new, σ'. split; [exact Hinit|]. split.
  - destruct (Hfield "id") as (v & Hv & Hread); [by_compute|].
    rewrite Hread. subst input. vm_compute in Hv. by injection Hv as <-.
  - rewrite Hother by by_compute. reflexivity.
Defined.

Lemma read_after_write_witness :
  let lookup := λ (_ : loc) (name : string),
    raise (S := gmap loc Endpoint.BaseObject) (A := val) (AttributeError name) in
  let Project := Endpoint.mkSchema "Project" {[ "id"; "name" ]} {[ "name" ]} in
  let o := Endpoint.mkBaseObject Project
             {[ "id" := VStr "r1"; "name" := VStr "Foo" ]} ∅ None ∅ in
  let σ : gmap loc Endpoint.BaseObject := {[ 1%positive := o ]} in
  ∃ σ',
    Endpoint.__setattr__ 1%positive "name" (VStr "Bar") σ = (Ok tt, σ')
    ∧ Resources.__getattr__ lookup 1%positive "name" σ' = (Ok (VStr "Bar"), σ').
Proof.
  intros lookup Project o σ.
  destruct (read_after_write lookup 1%positive o "name" (VStr "Bar") σ eq_refl)
    as (σ' & Hwrite & Hread & _); [by_compute|by_compute|].
  by exists σ'.
Defined.

Lemma identified_resource_export_witness :
  let lookup := λ (_ : loc) (name : string),
    raise (S := gmap loc Endpoint.BaseObject) (A := val) (AttributeError name) in
  let Project := Endpoint.mkSchema "Project" {[ "name" ]} {[ "name" ]} in
  let input : gmap string val := {[ "name" := VStr "Foo"; "zip" := VInt 1 ]} in
  ∃ self σ' r,
    Resources.BaseResource__init__ Project "r1" input ∅ = (Ok self, σ')
    ∧ Resources.BaseResource_dict lookup 1 self σ' = (Ok r, σ')
    ∧ r !! "id" = Some (VStr "r1")
    ∧ r !! "name" = Some (VStr "Foo")
    ∧ r !! "zip" = None.
Proof.
  intros lookup Project input.
  destruct (identified_resource_export lookup Project "r1" input ∅)
    as (self & o & σ' & Hinit & _ & _ & _ & Hexport);
    [by_compute|by_compute|by_compute|].
  destruct (Hexport) with (depth := 0) as (r & Hrun & Hid & Hother).
  { intros f Hf. cbn in Hf. apply elem_of_singleton in Hf. subst f.
    eexists. split; [reflexivity|exact I]. }
  exists self, σ', r. split; [exact Hinit|]. split; [exact Hrun|].
  split; [exact Hid|]. subst Project input. split.
  - rewrite Hother by done. vm_compute. reflexivity.
  - rewrite Hother by done. vm_compute. reflexivity.
Defined.

Lemma page_materializes_witness :
  let loads := λ s : string, Raise (A := val) (JSONDecodeError s) in
  let requestor := Api.Build_ApiRequestor (Api.Build_HttpClient "requests") in
  let self := Endpoint.mkBaseController 7%positive
    (Endpoint.mkConfiguration requestor (Requests.UriEnum Requests.PRODUCTION)
       (Some "key")) in
  let Project := Endpoint.mkSchema "Project" {[ "name" ]} {[ "name" ]} in
  let rows : list (gmap string val) :=
    [ {[ "name" := VStr "a" ]}; {[ "name" := VStr "b"; "zip" := VInt 1 ]} ] in
  let body : gmap string val :=
    {[ "results" := VList (VDict <$> rows); "next_url" := VNone;
       "count" := VInt 2 ]} in
  let response := Http.mkHttpResponse 200 "OK" (Some "...") None
                    (Some (VDict body)) in
  ∃ results σ',
    Resources.results_fetcher loads self (λ _, Ok response)
      (Endpoint.mkResource Project (Endpoint.construct Project)) 1 ∅
    = (Ok (results, false, VInt 2), σ')
    ∧ length results = 2.
Proof.
  intros loads requestor self Project rows body response.
  assert (body !! "results" = Some (VList (VDict <$> rows))) as Hresults
    by (subst body rows; vm_compute; reflexivity).
  assert (body !! "next_url" = Some VNone) as Hnext
    by (subst body rows; vm_compute; reflexivity).
  assert (body !! "count" = Some (VInt 2)) as Hcount
    by (subst body rows; vm_compute; reflexivity).
  assert (Forall (λ row : gmap string val,
            ∀ f, f ∈ Endpoint.__fields__ Project → is_Some (row !! f)) rows)
    as Hrows.
  { subst rows. repeat constructor; intros f Hf; cbn in Hf;
      apply elem_of_singleton in Hf; subst f; eexists;
      vm_compute; reflexivity. }
  assert (Endpoint.private_free Project) as Hfree by by_compute.
  assert ("controller" ∉ Endpoint.__fields__ Project) as Hc by by_compute.
  destruct (page_materializes loads self Project (λ _, Ok response) 1 response
              body rows VNone (VInt 2) ∅ Hfree Hc eq_refl eq_refl Hresults
              Hrows Hnext Hcount)
    as (results & σ' & Hrun & Hlen & _).
  exists results, σ'. split; [exact Hrun|exact Hlen].
Defined.

Lemma page_of_constructed_response_witness :
  let loads := λ s : string, Ok (VDict ∅) in
  let requestor := Api.Build_ApiRequestor (Api.Build_HttpClient "requests") in
  let self := Endpoint.mkBaseController 7%positive
    (Endpoint.mkConfiguration requestor (Requests.UriEnum Requests.PRODUCTION)
       (Some "key")) in
  let Project := Endpoint.mkSchema "Project" {[ "name" ]} {[ "name" ]} in
  Resources.results_fetcher loads self
    (λ _, Ok (Http.HttpResponse__init__ 200 "OK" (Some "{}") None))
    (Endpoint.mkResource Project (Endpoint.construct Project)) 1 ∅
  = (Raise (AttributeError "'HttpResponse' object has no attribute '_json'"),
     ∅).
Proof.
  intros loads requestor self Project.
  exact (page_of_constructed_response loads self
           (Endpoint.mkResource Project (Endpoint.construct Project))
           (λ _, Ok (Http.HttpResponse__init__ 200 "OK" (Some "{}") None))
           1 200 "OK" (Some "{}") None ∅ eq_refl).
Defined.

Lemma page_without_results_witness :
  let loads := λ s : string, Ok (VDict ∅) in
  let requestor := Api.Build_ApiRequestor (Api.Build_HttpClient "requests") in
  let self := Endpoint.mkBaseController 7%positive
    (Endpoint.mkConfiguration requestor (Requests.UriEnum Requests.PRODUCTION)
       (Some "key")) in
  let Project := Endpoint.mkSchema "Project" {[ "name" ]} {[ "name" ]} in
  let response := Http.mkHttpResponse 200 "OK" (Some "...") None
                    (Some (VDict {[ "count" := VInt 0 ]})) in
  Resources.results_fetcher loads self (λ _, Ok response)
    (Endpoint.mkResource Project (Endpoint.construct Project)) 1 ∅
  = (Raise (KeyError "results"), ∅).
Proof.
  intros loads requestor self Project response.
  destruct (page_without_results loads self
              (Endpoint.mkResource Project (Endpoint.construct Project))
              (λ _, Ok response) 1 response (VDict {[ "count" := VInt 0 ]}) ∅
              eq_refl eq_refl) as (Hmissing & _).
  apply Hmissing. eexists. split; reflexivity.
Defined.
